(** * server/google_directory_service.py: the Directory API shim

    A shallow embedding of the module that authenticates against the
    Directory API, fetches and updates user records and answers the
    admin-group membership question through memcache.

    The module is glue code around collaborators that live elsewhere
    (the datastore, memcache, the settings store, [setup], the API client
    library).  The stores the module reads and writes are fields of [World];
    the calls that leave the process are answered by a record of
    [Collaborators] acting on an external state of arbitrary type.  Every
    Python function becomes a computation in a state, exception and event-log
    monad [M], one bind per statement. *)

From stdpp Require Import gmap strings list fin_maps.
From Stdlib Require Import ZArith.

Local Open Scope Z_scope.

(** ** Python values (the JSON payloads of the API)

    The records the API client hands back are decoded JSON.  Numbers are
    kept as integers. *)

#[warnings="-register-all"] Inductive PyVal : Type :=
| PNone
| PBool (b : bool)
| PInt (n : Z)
| PStr (s : string)
| PList (l : list PyVal)
| PDict (d : gmap string PyVal).

(** A JSON object: the user record, the members listing. *)
Abbreviation Dict := (gmap string PyVal).

(** Python truth value testing, as [if v:] applies it. *)
Definition truthy (v : PyVal) : bool :=
  match v with
  | PNone => false
  | PBool b => b
  | PInt n => negb (n =? 0)
  | PStr s => negb (String.eqb s "")
  | PList l => match l with [] => false | _ :: _ => true end
  | PDict d => negb (bool_decide (d = ∅))
  end.

(** [d.get(key, default)] *)
Definition dict_get (d : Dict) (key : string) (default : PyVal) : PyVal :=
  match d !! key with
  | Some v => v
  | None => default
  end.

(** [s == v] for a string [s]: only an equal string compares equal. *)
Definition py_eq_str (s : string) (v : PyVal) : bool :=
  match v with
  | PStr s' => String.eqb s s'
  | _ => false
  end.

(** [s in l] for a list [l]: some element compares equal to [s]. *)
Definition py_in (s : string) (l : list PyVal) : bool :=
  existsb (py_eq_str s) l.

(** ** Exceptions and results

    One constructor per exception class the module raises or catches, with
    its message.  [PyException] is the plain [Exception] of the two [raise
    Exception(...)] statements; [RemoteError] stands for every other failure
    of a collaborator (transport, permissions, quota).  An [except] clause
    matches the constructor of its class. *)

Inductive Exn : Type :=
| SetupNeeded (msg : string)
| AccessTokenRefreshError (msg : string)
| NotImplementedError (msg : string)
| KeyError (key : string)
| TypeError (msg : string)
| PyException (msg : string)
| RemoteError (name msg : string).

Inductive Result (A : Type) : Type :=
| Ok (a : A)
| Raise (e : Exn).
Arguments Ok {A} a.
Arguments Raise {A} e.

(** [v[key]] for a string key. *)
Definition py_getitem (v : PyVal) (key : string) : Result PyVal :=
  match v with
  | PDict d =>
      match d !! key with
      | Some x => Ok x
      | None => Raise (KeyError key)
      end
  | PList _ => Raise (TypeError "list indices must be integers, not str")
  | PStr _ => Raise (TypeError "string indices must be integers, not str")
  | PNone => Raise (TypeError "'NoneType' object has no attribute '__getitem__'")
  | PBool _ => Raise (TypeError "'bool' object has no attribute '__getitem__'")
  | PInt _ => Raise (TypeError "'int' object has no attribute '__getitem__'")
  end.

Fixpoint chars (s : string) : list PyVal :=
  match s with
  | EmptyString => []
  | String c s' => PStr (String c EmptyString) :: chars s'
  end.

(** The items [for x in v:] walks through. *)
Definition py_iter (v : PyVal) : Result (list PyVal) :=
  match v with
  | PList l => Ok l
  | PDict d => Ok (PStr <$> (map_to_list d).*1)
  | PStr s => Ok (chars s)
  | PNone => Raise (TypeError "'NoneType' object is not iterable")
  | PBool _ => Raise (TypeError "'bool' object is not iterable")
  | PInt _ => Raise (TypeError "'int' object is not iterable")
  end.

(** ** Objects of the client libraries *)

(** An opaque authorization token set. *)
Record Credentials : Type := { blob : string }.

(** [credentials.authorize(httplib2.Http())] *)
Record AuthorizedHttp : Type := { http_credentials : Credentials }.

Definition authorize (credentials : Credentials) : AuthorizedHttp :=
  {| http_credentials := credentials |}.

Record Service : Type :=
  { serviceName : string; version : string; http : AuthorizedHttp }.

(** The appengine user object. *)
Record User : Type := { email : string; nickname : string }.

(** ** Events: every interaction with a collaborator, in order *)

Inductive LogLevel : Type := Debug | Info.

Inductive Event : Type :=
| EvLog (level : LogLevel) (msg : string) (args : list string)
| EvStorageGet (key_name : string)
| EvCredentialsDelete (key_name : string)
| EvLoadCredentialsFromPem
| EvBuild (name ver : string)
| EvUsersGet (userKey : string) (res : Result Dict)
| EvUsersUpdate (userKey : string) (body : Dict)
| EvMembersList (groupKey : option string) (res : Result Dict)
| EvSettingGet (name : string)
| EvMemcacheGet (key : string)
| EvMemcacheSet (key : string) (value : list PyVal) (time : Z).

Definition is_memcache_event (ev : Event) : bool :=
  match ev with
  | EvMemcacheGet _ | EvMemcacheSet _ _ _ => true
  | _ => false
  end.

Definition is_members_list (ev : Event) : bool :=
  match ev with
  | EvMembersList _ _ => true
  | _ => false
  end.

Definition is_credentials_delete (ev : Event) : bool :=
  match ev with
  | EvCredentialsDelete _ => true
  | _ => false
  end.

(** ** Module constants *)

Definition API_SERVICE_NAME : string := "admin".
Definition DIRECTORY_API_VERSION : string := "directory_v1".
Definition MEMCACHE_ADMIN_KEY : string := "admins".
Definition MEMCACHE_EXPIRATION_TIME_IN_SECONDS : Z := 600.

Definition INVALID_PEM_MESSAGE : string :=
  "The service account credentials are invalid.  " +:+
  "Check to make sure you have a valid PEM file and you " +:+
  "have removed any extra data attributes that may have " +:+
  "been written to the PEM file when converted from " +:+
  "PKCS12.  The existing PEM key has been revoked and " +:+
  "needs to be updated with a new valid key.".

(** ** The world of the module and its collaborators *)

Section DirectoryService.

(** The state of everything outside the process: the remote directory, the
    key file, the network.  Nothing is assumed about it. *)
Context {ext : Type}.

(** The stores at one moment.  An entry of [memcache] is there as long as
    it has not expired; the expiration time given to [memcache.set] is kept
    next to the value.  The collaborators answer from [remote] and change
    nothing else: the stores change only where the module writes them. *)
Record World : Type := {
  CURRENT_DOMAIN : string;                      (* datastore.CURRENT_DOMAIN *)
  SERVICE_ACCOUNT : bool;                       (* config.SERVICE_ACCOUNT *)
  settings : gmap string string;                (* datastore.Setting *)
  credentials_model : gmap string Credentials;  (* CredentialsModel, by key name *)
  memcache : gmap string (list PyVal * Z);      (* value and expiration time *)
  remote : ext
}.

Definition set_credentials_model (c : gmap string Credentials) (w : World) : World :=
  {| CURRENT_DOMAIN := CURRENT_DOMAIN w; SERVICE_ACCOUNT := SERVICE_ACCOUNT w;
     settings := settings w; credentials_model := c;
     memcache := memcache w; remote := remote w |}.

Definition set_memcache (m : gmap string (list PyVal * Z)) (w : World) : World :=
  {| CURRENT_DOMAIN := CURRENT_DOMAIN w; SERVICE_ACCOUNT := SERVICE_ACCOUNT w;
     settings := settings w; credentials_model := credentials_model w;
     memcache := m; remote := remote w |}.

Definition set_remote (e : ext) (w : World) : World :=
  {| CURRENT_DOMAIN := CURRENT_DOMAIN w; SERVICE_ACCOUNT := SERVICE_ACCOUNT w;
     settings := settings w; credentials_model := credentials_model w;
     memcache := memcache w; remote := e |}.

(** The calls that leave the process.  Each one answers from the external
    state and may change it; each one may raise. *)
Record Collaborators : Type := {
  (* setup.LoadCredentialsFromPem() *)
  load_credentials_from_pem : ext → Result Credentials * ext;
  (* apiclient.discovery.build(serviceName=, version=, http=) *)
  discovery_build : string → string → AuthorizedHttp → ext → Result Service * ext;
  (* service.users().get(userKey=).execute() *)
  users_get_execute : Service → string → ext → Result Dict * ext;
  (* service.users().update(userKey=, body=).execute() *)
  users_update_execute : Service → string → Dict → ext → Result unit * ext;
  (* service.members().list(groupKey=).execute() *)
  members_list_execute : Service → option string → ext → Result Dict * ext
}.

Context (lib : Collaborators).

(** ** The monad: state, exceptions, and the events of the run *)

Definition M (A : Type) : Type := World → Result A * World * list Event.

#[global] Instance M_ret : MRet M := λ A a w, (Ok a, w, []).

#[global] Instance M_bind : MBind M := λ A B f m w,
  match m w with
  | (Ok a, w1, t1) =>
      match f a w1 with
      | (r, w2, t2) => (r, w2, t1 ++ t2)
      end
  | (Raise e, w1, t1) => (Raise e, w1, t1)
  end.

Definition raise {A : Type} (e : Exn) : M A := λ w, (Raise e, w, []).

(** [try: body except <class>: handler]: [handler e] is [None] when the
    except clause does not match [e], which then propagates. *)
Definition try_except {A : Type} (body : M A) (handler : Exn → option (M A)) : M A :=
  λ w,
    match body w with
    | (Ok a, w1, t1) => (Ok a, w1, t1)
    | (Raise e, w1, t1) =>
        match handler e with
        | Some h =>
            match h w1 with
            | (r, w2, t2) => (r, w2, t1 ++ t2)
            end
        | None => (Raise e, w1, t1)
        end
    end.

Definition gets {A : Type} (f : World → A) : M A := λ w, (Ok (f w), w, []).

Definition emit (ev : Event) : M unit := λ w, (Ok tt, w, [ev]).

Definition lift {A : Type} (r : Result A) : M A := λ w, (r, w, []).

(** ** Primitive operations on the collaborators *)

Definition logging_debug (msg : string) (args : list string) : M unit :=
  emit (EvLog Debug msg args).

Definition logging_info (msg : string) (args : list string) : M unit :=
  emit (EvLog Info msg args).

(** [appengine.StorageByKeyName(appengine.CredentialsModel, key_name,
    'credentials').get()] *)
Definition StorageByKeyName_get (key_name : string) : M (option Credentials) :=
  emit (EvStorageGet key_name);;
  gets (λ w, credentials_model w !! key_name).

(** [ndb.Key('CredentialsModel', key_name).delete()] *)
Definition CredentialsModel_Key_delete (key_name : string) : M unit :=
  λ w, (Ok tt, set_credentials_model (delete key_name (credentials_model w)) w,
        [EvCredentialsDelete key_name]).

(** Modelled from the spec: [datastore.Setting.get(name)], whose module is
    not among the sources.  The settings store is keyed by setting name and
    holds string values; the lookup gives the value, or [None]. *)
Definition Setting_get (name : string) : M (option string) :=
  emit (EvSettingGet name);;
  gets (λ w, settings w !! name).

(** [not v] for a setting value: [None] and the empty string are false. *)
Definition setting_truthy (v : option string) : bool :=
  match v with
  | None => false
  | Some s => negb (String.eqb s "")
  end.

(** [memcache.get(key)]: the value, or [None]. *)
Definition memcache_get (key : string) : M (option (list PyVal)) :=
  emit (EvMemcacheGet key);;
  gets (λ w, fst <$> memcache w !! key).

(** [memcache.set(key, value, time)] *)
Definition memcache_set (key : string) (value : list PyVal) (time : Z) : M unit :=
  λ w, (Ok tt, set_memcache (<[key := (value, time)]> (memcache w)) w,
        [EvMemcacheSet key value time]).

Definition LoadCredentialsFromPem : M Credentials :=
  λ w, match load_credentials_from_pem lib (remote w) with
       | (r, e) => (r, set_remote e w, [EvLoadCredentialsFromPem])
       end.

Definition build (name ver : string) (h : AuthorizedHttp) : M Service :=
  λ w, match discovery_build lib name ver h (remote w) with
       | (r, e) => (r, set_remote e w, [EvBuild name ver])
       end.

Definition users_get (service : Service) (userKey : string) : M Dict :=
  λ w, match users_get_execute lib service userKey (remote w) with
       | (r, e) => (r, set_remote e w, [EvUsersGet userKey r])
       end.

Definition users_update (service : Service) (userKey : string) (body : Dict) : M unit :=
  λ w, match users_update_execute lib service userKey body (remote w) with
       | (r, e) => (r, set_remote e w, [EvUsersUpdate userKey body])
       end.

Definition members_list (service : Service) (groupKey : option string) : M Dict :=
  λ w, match members_list_execute lib service groupKey (remote w) with
       | (r, e) => (r, set_remote e w, [EvMembersList groupKey r])
       end.

(** ** The functions of the module *)

Definition _GetAuthorizedHttp (credentials : option Credentials) : M AuthorizedHttp :=
  credentials ←
    match credentials with
    | Some c => mret c
    | None =>
        domain ← gets CURRENT_DOMAIN;
        stored ← StorageByKeyName_get domain;
        match stored with
        | Some c =>
            logging_debug "Successfully got credentials from storage." [];;
            mret c
        | None =>
            service_account ← gets SERVICE_ACCOUNT;
            if (service_account : bool)
            then LoadCredentialsFromPem
            else raise (SetupNeeded "Credentials not in storage")
        end
    end;
  mret (authorize credentials).

Definition BuildService (credentials : option Credentials) : M Service :=
  try_except
    (h ← _GetAuthorizedHttp credentials;
     build API_SERVICE_NAME DIRECTORY_API_VERSION h)
    (λ e, match e with
          | NotImplementedError _ =>
              Some (domain ← gets CURRENT_DOMAIN;
                    CredentialsModel_Key_delete domain;;
                    raise (PyException INVALID_PEM_MESSAGE))
          | _ => None
          end).

(** The loop [for member in members: admin_emails.append(member['email'])]. *)
Fixpoint append_emails (admin_emails : list PyVal) (members : list PyVal)
  : Result (list PyVal) :=
  match members with
  | [] => Ok admin_emails
  | member :: rest =>
      match py_getitem member "email" with
      | Ok e => append_emails (admin_emails ++ [e]) rest
      | Raise ex => Raise ex
      end
  end.

Definition _GetAdminEmails : M (list PyVal) :=
  let admin_emails := [] in
  service ← BuildService None;
  groupKey ← Setting_get "admin_group";
  admin_group_info ← members_list service groupKey;
  members ← lift (py_getitem (PDict admin_group_info) "members");
  members ← lift (py_iter members);
  admin_emails ← lift (append_emails admin_emails members);
  domain ← gets CURRENT_DOMAIN;
  memcache_set ((domain +:+ ":") +:+ MEMCACHE_ADMIN_KEY) admin_emails
               MEMCACHE_EXPIRATION_TIME_IN_SECONDS;;
  mret admin_emails.

Definition GetUserInfo (user_email : string) : M Dict :=
  logging_debug "Getting domain info for %s." [user_email];;
  service ← BuildService None;
  user_info ← users_get service user_email;
  mret user_info.

Definition UpdateUserInfo (user_email : string) (new_user_info : Dict) : M unit :=
  logging_debug "Updating domain info for %s." [user_email];;
  service ← BuildService None;
  users_update service user_email new_user_info.

Definition IsInAdminGroup (user : User) : M bool :=
  user_info ←
    try_except
      (GetUserInfo (email user))
      (λ e, match e with
            | AccessTokenRefreshError _ =>
                Some (domain ← gets CURRENT_DOMAIN;
                      CredentialsModel_Key_delete domain;;
                      raise (SetupNeeded "oauth token no longer valid"))
            | _ => None
            end);
  if truthy (dict_get user_info "isAdmin" (PStr ""))
  then
    logging_info "user is a domain admin" [];;
    mret true
  else
    logging_debug "Checking if %s is in admin group." [nickname user];;
    admin_group ← Setting_get "admin_group";
    if negb (setting_truthy admin_group)
    then raise (PyException "You must configure ADMIN_GROUP in config.py")
    else
      domain ← gets CURRENT_DOMAIN;
      cached_admin_emails ← memcache_get ((domain +:+ ":") +:+ MEMCACHE_ADMIN_KEY);
      match cached_admin_emails with
      | Some cached =>
          logging_debug "Admin info is found in memcache." [];;
          if py_in (email user) cached then mret true else mret false
      | None =>
          logging_debug "Admin info is not found in memcache." [];;
          admin_emails ← _GetAdminEmails;
          if py_in (email user) admin_emails then mret true else mret false
      end.

End DirectoryService.

Arguments World : clear implicits.
Arguments Collaborators : clear implicits.

(** ** Reading the event log *)

Fixpoint count_events (p : Event → bool) (t : list Event) : nat :=
  match t with
  | [] => 0%nat
  | ev :: t' => ((if p ev then 1 else 0) + count_events p t')%nat
  end.

(** The key of the admin-email cache entry, as the specification writes it. *)
Definition admins_key (domain : string) : string := domain +:+ ":admins".

(** A member record of a listing carries an [email] field. *)
Definition member_email (member email_value : PyVal) : Prop :=
  ∃ d : Dict, member = PDict d ∧ d !! "email" = Some email_value.

(** ** A scripted directory for running the module on concrete inputs *)

Module Demo.

(** The external state counts the calls that reached it. *)
Record Script : Type := {
  pem : Result Credentials;
  build_failure : option Exn;
  directory : string → Result Dict;
  listing : Result Dict
}.

Definition scripted (s : Script) : Collaborators nat := {|
  load_credentials_from_pem := λ n, (pem s, S n);
  discovery_build := λ name ver h n,
    (match build_failure s with
     | None => Ok {| serviceName := name; version := ver; http := h |}
     | Some e => Raise e
     end, S n);
  users_get_execute := λ _ userKey n, (directory s userKey, S n);
  users_update_execute := λ _ _ _ n, (Ok tt, S n);
  members_list_execute := λ _ _ n, (listing s, S n)
|}.

Definition stored : Credentials := {| blob := "token" |}.

Definition record_of (is_admin : option PyVal) (address : string) : Dict :=
  match is_admin with
  | Some v => <["isAdmin" := v]> {[ "primaryEmail" := PStr address ]}
  | None => {[ "primaryEmail" := PStr address ]}
  end.

Definition member (address : string) : PyVal :=
  PDict {[ "email" := PStr address ]}.

(** A directory of plain users whose admin group has the one member
    [a@x.com]. *)
Definition plain : Script := {|
  pem := Raise (RemoteError "IOError" "no key file");
  build_failure := None;
  directory := λ address, Ok (record_of (Some (PBool false)) address);
  listing := Ok {[ "members" := PList [member "a@x.com"] ]}
|}.

Definition with_directory (f : string → Result Dict) (s : Script) : Script :=
  {| pem := pem s; build_failure := build_failure s;
     directory := f; listing := listing s |}.

Definition with_listing (l : Result Dict) (s : Script) : Script :=
  {| pem := pem s; build_failure := build_failure s;
     directory := directory s; listing := l |}.

Definition with_build_failure (e : Exn) (s : Script) : Script :=
  {| pem := pem s; build_failure := Some e;
     directory := directory s; listing := listing s |}.

Definition with_pem (c : Result Credentials) (s : Script) : Script :=
  {| pem := c; build_failure := build_failure s;
     directory := directory s; listing := listing s |}.

(** The domain [x.com], set up, with the admin group configured and
    nothing cached. *)
Definition world : World nat := {|
  CURRENT_DOMAIN := "x.com";
  SERVICE_ACCOUNT := false;
  settings := {[ "admin_group" := "admins@x.com" ]};
  credentials_model := {[ "x.com" := stored ]};
  memcache := ∅;
  remote := 0%nat
|}.

(** The same directory, with every user a domain admin. *)
Definition admins : Script :=
  with_directory (λ address, Ok (record_of (Some (PBool true)) address)) plain.

(** The directory answers every get-user call with a refresh failure. *)
Definition expired : Script :=
  with_directory (λ _, Raise (AccessTokenRefreshError "invalid_grant")) plain.

(** The listing call alone meets the refresh failure. *)
Definition expired_listing : Script :=
  with_listing (Raise (AccessTokenRefreshError "invalid_grant")) plain.

(** The stored key is in a format the client library cannot read. *)
Definition bad_key : Script :=
  with_build_failure (NotImplementedError "PKCS12 format is not supported") plain.

(** Records without the [isAdmin] key, and with a string under it. *)
Definition no_flag : Script :=
  with_directory (λ address, Ok (record_of None address)) plain.

Definition string_flag : Script :=
  with_directory (λ address, Ok (record_of (Some (PStr "yes")) address)) plain.

Definition cached_world : World nat :=
  set_memcache {[ "x.com:admins" := ([PStr "a@x.com"; PStr "b@x.com"], 600) ]} world.

Definition unconfigured : World nat := {|
  CURRENT_DOMAIN := "x.com";
  SERVICE_ACCOUNT := false;
  settings := ∅;
  credentials_model := {[ "x.com" := stored ]};
  memcache := ∅;
  remote := 0%nat
|}.

Definition unconfigured_cached : World nat :=
  set_memcache {[ "x.com:admins" := ([PStr "a@x.com"; PStr "b@x.com"], 600) ]}
    unconfigured.

(** A domain that was never set up. *)
Definition fresh : World nat := {|
  CURRENT_DOMAIN := "x.com";
  SERVICE_ACCOUNT := false;
  settings := {[ "admin_group" := "admins@x.com" ]};
  credentials_model := ∅;
  memcache := ∅;
  remote := 0%nat
|}.

(** The same domain in service-account mode, and a readable key file. *)
Definition fresh_service_account : World nat := {|
  CURRENT_DOMAIN := "x.com";
  SERVICE_ACCOUNT := true;
  settings := {[ "admin_group" := "admins@x.com" ]};
  credentials_model := ∅;
  memcache := ∅;
  remote := 0%nat
|}.

Definition key : Credentials := {| blob := "pem" |}.

Definition key_file : Script := with_pem (Ok key) plain.

Definition alice : User := {| email := "a@x.com"; nickname := "a" |}.
Definition carol : User := {| email := "c@x.com"; nickname := "c" |}.

End Demo.

(** ** Further scripted directories, for the edge cases *)

Module Edge.

(** The listing of a group with no members: no [members] key. *)
Definition empty_group : Demo.Script :=
  Demo.with_listing (Ok ∅) Demo.plain.

(** A listing whose second member has no [email] field. *)
Definition broken_listing : Demo.Script :=
  Demo.with_listing
    (Ok {[ "members" := PList [Demo.member "a@x.com"; PDict ∅; Demo.member "b@x.com"] ]})
    Demo.plain.

(** The directory refuses every get-user call. *)
Definition forbidden : Demo.Script :=
  Demo.with_directory (λ _, Raise (RemoteError "HttpError" "403")) Demo.plain.

(** The plain directory, except that every update call meets the refresh
    failure. *)
Definition failing_update : Collaborators nat := {|
  load_credentials_from_pem := load_credentials_from_pem (Demo.scripted Demo.plain);
  discovery_build := discovery_build (Demo.scripted Demo.plain);
  users_get_execute := users_get_execute (Demo.scripted Demo.plain);
  users_update_execute := λ _ _ _ n,
    (Raise (AccessTokenRefreshError "invalid_grant"), S n);
  members_list_execute := members_list_execute (Demo.scripted Demo.plain)
|}.

(** The domain [x.com] with an empty [admin_group] setting. *)
Definition empty_setting : World nat := {|
  CURRENT_DOMAIN := "x.com";
  SERVICE_ACCOUNT := false;
  settings := {[ "admin_group" := "" ]};
  credentials_model := {[ "x.com" := Demo.stored ]};
  memcache := ∅;
  remote := 0%nat
|}.

(** Two domains share the stores; [y.com] has credentials and a cache
    entry of its own. *)
Definition shared : World nat := {|
  CURRENT_DOMAIN := "x.com";
  SERVICE_ACCOUNT := false;
  settings := {[ "admin_group" := "admins@x.com" ]};
  credentials_model := {[ "x.com" := Demo.stored; "y.com" := Demo.key ]};
  memcache := {[ "y.com:admins" := ([PStr "root@y.com"], 600) ]};
  remote := 0%nat
|}.

End Edge.

(** * Properties *)

Section Properties.

Context {ext : Type} (lib : Collaborators ext).

(** ** The monad and the primitive operations, unfolded *)

Ltac unfold_run :=
  unfold IsInAdminGroup, _GetAdminEmails, GetUserInfo, UpdateUserInfo,
    BuildService, _GetAuthorizedHttp, try_except, mbind, M_bind, mret, M_ret,
    raise, gets, emit, lift, logging_debug, logging_info,
    StorageByKeyName_get, CredentialsModel_Key_delete, Setting_get,
    memcache_get, memcache_set, LoadCredentialsFromPem, build, users_get,
    users_update, members_list in *.

(** The statements of [IsInAdminGroup] and [_GetAdminEmails] in the goal,
    leaving the calls to [GetUserInfo] and [BuildService] folded. *)
Ltac step_run :=
  repeat progress
    unfold IsInAdminGroup, _GetAdminEmails, try_except, mbind, M_bind, mret,
      M_ret, raise, gets, emit, lift, logging_debug, logging_info,
      CredentialsModel_Key_delete, Setting_get, memcache_get, memcache_set,
      members_list;
  cbn -[BuildService GetUserInfo].

Ltac split_run :=
  repeat first
    [ progress simplify_eq/=
    | match goal with
      | H : context [match ?x with _ => _ end] |- _ =>
          let E := fresh "E" in destruct x eqn:E
      end ].

Lemma count_events_app p t1 t2 :
  count_events p (t1 ++ t2) = (count_events p t1 + count_events p t2)%nat.
Proof. induction t1 as [|ev t1 IH]; simpl; [done | rewrite IH; lia]. Qed.

Lemma admins_key_eq domain :
  (domain +:+ ":") +:+ MEMCACHE_ADMIN_KEY = admins_key domain.
Proof.
  unfold admins_key, MEMCACHE_ADMIN_KEY.
  induction domain as [|c d IH]; [done |].
  change ((String c d +:+ ":") +:+ "admins") with (String c ((d +:+ ":") +:+ "admins")).
  change (String c d +:+ ":admins") with (String c (d +:+ ":admins")).
  by rewrite IH.
Qed.

Lemma py_in_spec s l : py_in s l = true ↔ PStr s ∈ l.
Proof.
  unfold py_in. rewrite existsb_exists. split.
  - intros (v & Hin & Heq). destruct v; simpl in Heq; try discriminate.
    apply String.eqb_eq in Heq. subst. by apply list_elem_of_In.
  - intros Hin. exists (PStr s). split; [by apply list_elem_of_In |].
    simpl. apply String.eqb_refl.
Qed.

(** What building the service leaves behind, whatever its outcome. *)
Lemma BuildService_frame credentials w r w1 t :
  BuildService lib credentials w = (r, w1, t) →
  CURRENT_DOMAIN w1 = CURRENT_DOMAIN w ∧ SERVICE_ACCOUNT w1 = SERVICE_ACCOUNT w ∧
  settings w1 = settings w ∧ memcache w1 = memcache w ∧
  count_events is_memcache_event t = 0%nat ∧
  count_events is_members_list t = 0%nat.
Proof.
  intros H. unfold_run.
  destruct credentials; split_run; by repeat split.
Qed.

(** A service that was built left every store of the module as it was. *)
Lemma BuildService_Ok credentials w service w1 t :
  BuildService lib credentials w = (Ok service, w1, t) →
  w1 = set_remote (remote w1) w ∧
  count_events is_credentials_delete t = 0%nat.
Proof.
  intros H. unfold_run.
  destruct credentials, w; split_run; by split.
Qed.

(** Building the service never reaches the user-get endpoint. *)
Lemma BuildService_no_users_get credentials w r w1 t userKey res :
  BuildService lib credentials w = (r, w1, t) →
  EvUsersGet userKey res ∉ t.
Proof.
  intros H Hin. unfold_run.
  destruct credentials; split_run;
    repeat (apply elem_of_cons in Hin as [Hin|Hin]; [discriminate|]);
    by apply elem_of_nil in Hin.
Qed.

(** The stored credentials survive unless the key was found unusable. *)
Lemma BuildService_credentials credentials w r w1 t :
  BuildService lib credentials w = (r, w1, t) →
  credentials_model w1 = credentials_model w ∨
  (r = Raise (PyException INVALID_PEM_MESSAGE) ∧
   credentials_model w1 = delete (CURRENT_DOMAIN w) (credentials_model w)).
Proof.
  intros H. unfold_run.
  destruct credentials; split_run; auto.
Qed.

Lemma GetUserInfo_frame user_email w r w1 t :
  GetUserInfo lib user_email w = (r, w1, t) →
  CURRENT_DOMAIN w1 = CURRENT_DOMAIN w ∧ SERVICE_ACCOUNT w1 = SERVICE_ACCOUNT w ∧
  settings w1 = settings w ∧ memcache w1 = memcache w ∧
  count_events is_memcache_event t = 0%nat ∧
  count_events is_members_list t = 0%nat.
Proof.
  intros H. unfold GetUserInfo, mbind, M_bind, mret, M_ret, logging_debug,
    emit, users_get in H.
  destruct (BuildService lib None w) as [[rb wb] tb] eqn:Hb.
  apply BuildService_frame in Hb as (? & ? & ? & ? & ? & ?).
  split_run; rewrite ?count_events_app; simpl; repeat split; try congruence; lia.
Qed.

Lemma GetUserInfo_Ok user_email w user_info w1 t :
  GetUserInfo lib user_email w = (Ok user_info, w1, t) →
  w1 = set_remote (remote w1) w ∧
  count_events is_credentials_delete t = 0%nat.
Proof.
  intros H. unfold GetUserInfo, mbind, M_bind, mret, M_ret, logging_debug,
    emit, users_get in H.
  destruct (BuildService lib None w) as [[rb wb] tb] eqn:Hb.
  destruct rb as [service|ex]; [|split_run].
  apply BuildService_Ok in Hb as [Hb Hc]. split_run. split.
  - rewrite Hb. by destruct w.
  - rewrite !count_events_app, Hc. done.
Qed.


Lemma GetUserInfo_credentials user_email w r w1 t :
  GetUserInfo lib user_email w = (r, w1, t) →
  credentials_model w1 = credentials_model w ∨
  (r = Raise (PyException INVALID_PEM_MESSAGE) ∧
   credentials_model w1 = delete (CURRENT_DOMAIN w) (credentials_model w)).
Proof.
  intros H. unfold GetUserInfo, mbind, M_bind, mret, M_ret, logging_debug,
    emit, users_get in H.
  destruct (BuildService lib None w) as [[rb wb] tb] eqn:Hb.
  apply BuildService_credentials in Hb.
  split_run; destruct Hb as [?|[? ?]]; simplify_eq/=; auto.
Qed.

(** ** The credential provider and the service builder *)

(** C6.  The credential lookup is an ordered fallback chain that stops at
    the first source with credentials: credentials passed in are used as
    they are, with no lookup at all; else the credentials stored for the
    current domain are used when present, and the key file is not touched;
    else, in service-account mode, the outcome is that of loading the
    credentials from the key file; else [SetupNeeded] is raised. *)
Theorem GetAuthorizedHttp_fallback_chain :
  (∀ w c, _GetAuthorizedHttp lib (Some c) w = (Ok (authorize c), w, [])) ∧
  (∀ w c,
     credentials_model w !! CURRENT_DOMAIN w = Some c →
     _GetAuthorizedHttp lib None w =
       (Ok (authorize c), w,
        [EvStorageGet (CURRENT_DOMAIN w);
         EvLog Debug "Successfully got credentials from storage." []])) ∧
  (∀ w,
     credentials_model w !! CURRENT_DOMAIN w = None →
     SERVICE_ACCOUNT w = true →
     _GetAuthorizedHttp lib None w =
       (match load_credentials_from_pem lib (remote w) with
        | (Ok c, e) => (Ok (authorize c), set_remote e w)
        | (Raise ex, e) => (Raise ex, set_remote e w)
        end,
        [EvStorageGet (CURRENT_DOMAIN w); EvLoadCredentialsFromPem])) ∧
  (∀ w,
     credentials_model w !! CURRENT_DOMAIN w = None →
     SERVICE_ACCOUNT w = false →
     _GetAuthorizedHttp lib None w =
       (Raise (SetupNeeded "Credentials not in storage"), w,
        [EvStorageGet (CURRENT_DOMAIN w)])).
Proof.
  repeat split.
  - intros w c Hc. unfold_run. simpl. by rewrite Hc.
  - intros w Hc Hsa. unfold_run. simpl. rewrite Hc, Hsa.
    by destruct (load_credentials_from_pem lib (remote w)) as [[c|ex] e].
  - intros w Hc Hsa. unfold_run. simpl. by rewrite Hc, Hsa.
Qed.

(** C7.  When building the directory service fails with
    [NotImplementedError], [BuildService] deletes the stored credentials of
    the current domain and raises the error that tells the operator to
    replace the key file; any other outcome of the build, failures included,
    is handed on as it is, with the stored credentials untouched. *)
Theorem BuildService_invalid_key credentials w r w1 t1 :
  (h ← _GetAuthorizedHttp lib credentials;
   build lib API_SERVICE_NAME DIRECTORY_API_VERSION h) w = (r, w1, t1) →
  (∀ msg, r = Raise (NotImplementedError msg) →
     BuildService lib credentials w =
       (Raise (PyException INVALID_PEM_MESSAGE),
        set_credentials_model (delete (CURRENT_DOMAIN w) (credentials_model w)) w1,
        t1 ++ [EvCredentialsDelete (CURRENT_DOMAIN w)])) ∧
  ((∀ msg, r ≠ Raise (NotImplementedError msg)) →
     BuildService lib credentials w = (r, w1, t1) ∧
     credentials_model w1 = credentials_model w ∧
     count_events is_credentials_delete t1 = 0%nat).
Proof.
  intros Hbody.
  assert (CURRENT_DOMAIN w1 = CURRENT_DOMAIN w ∧
          credentials_model w1 = credentials_model w ∧
          count_events is_credentials_delete t1 = 0%nat) as (Hd & Hcr & Hc).
  { clear -Hbody. unfold_run. destruct credentials; split_run; by repeat split. }
  split.
  - intros msg ->. unfold BuildService, try_except. rewrite Hbody.
    unfold_run. simpl. by rewrite Hd, Hcr.
  - intros Hne. split; [|done].
    unfold BuildService, try_except. rewrite Hbody.
    destruct r as [service|[]]; try done. by destruct (Hne msg).
Qed.

(** ** The directory accessor *)


(** ** The admin membership checker *)

(** C1.  When the directory record of the user carries a true [isAdmin]
    flag, [IsInAdminGroup] returns [True] right after the get-user call: the
    only further event is the log line, the admin-email cache is neither read
    nor written, and no group-members listing call is made. *)
Theorem IsInAdminGroup_domain_admin user w user_info w1 t1 :
  GetUserInfo lib (email user) w = (Ok user_info, w1, t1) →
  user_info !! "isAdmin" = Some (PBool true) →
  let t := t1 ++ [EvLog Info "user is a domain admin" []] in
  IsInAdminGroup lib user w = (Ok true, w1, t) ∧
  memcache w1 = memcache w ∧
  count_events is_memcache_event t = 0%nat ∧
  count_events is_members_list t = 0%nat.
Proof.
  intros Hget Hadmin t. subst t.
  pose proof (GetUserInfo_frame _ _ _ _ _ Hget) as (_ & _ & _ & Hmc & Hc1 & Hc2).
  split; [|rewrite !count_events_app, Hc1, Hc2; by repeat split].
  unfold IsInAdminGroup, try_except, mbind, M_bind at 1.
  rewrite Hget. unfold dict_get. rewrite Hadmin. reflexivity.
Qed.

(** C5.  In a domain with no [admin_group] setting, [IsInAdminGroup] on a
    user who is not a domain admin raises the configuration error; up to
    that point the admin-email cache was neither read nor written and no
    group-members listing call was made. *)
Theorem IsInAdminGroup_admin_group_unset user w user_info w1 t1 :
  GetUserInfo lib (email user) w = (Ok user_info, w1, t1) →
  truthy (dict_get user_info "isAdmin" (PStr "")) = false →
  settings w !! "admin_group" = None →
  let t := t1 ++ [EvLog Debug "Checking if %s is in admin group." [nickname user];
                  EvSettingGet "admin_group"] in
  IsInAdminGroup lib user w =
    (Raise (PyException "You must configure ADMIN_GROUP in config.py"), w1, t) ∧
  memcache w1 = memcache w ∧
  count_events is_memcache_event t = 0%nat ∧
  count_events is_members_list t = 0%nat.
Proof.
  intros Hget Hadmin Hset t. subst t.
  pose proof (GetUserInfo_frame _ _ _ _ _ Hget) as (_ & _ & Hs & Hmc & Hc1 & Hc2).
  split.
  - unfold IsInAdminGroup, try_except, mbind, M_bind at 1.
    rewrite Hget, Hadmin. unfold_run. simpl. rewrite Hs, Hset. simpl.
    reflexivity.
  - rewrite !count_events_app, Hc1, Hc2. by repeat split.
Qed.

(** C4.  When the get-user call raises [AccessTokenRefreshError], the
    stored credentials of the current domain are deleted and [SetupNeeded] is
    raised; the admin-email cache, the settings and the credentials of other
    domains stay as they were. *)
Theorem IsInAdminGroup_token_refresh_error user w msg w1 t1 :
  GetUserInfo lib (email user) w = (Raise (AccessTokenRefreshError msg), w1, t1) →
  ∃ w',
    IsInAdminGroup lib user w =
      (Raise (SetupNeeded "oauth token no longer valid"), w',
       t1 ++ [EvCredentialsDelete (CURRENT_DOMAIN w)]) ∧
    credentials_model w' = delete (CURRENT_DOMAIN w) (credentials_model w) ∧
    credentials_model w' !! CURRENT_DOMAIN w = None ∧
    memcache w' = memcache w ∧
    settings w' = settings w ∧
    count_events is_memcache_event (t1 ++ [EvCredentialsDelete (CURRENT_DOMAIN w)]) = 0%nat.
Proof.
  intros Hget.
  pose proof (GetUserInfo_frame _ _ _ _ _ Hget) as (Hd & _ & Hs & Hmc & Hc1 & _).
  pose proof (GetUserInfo_credentials _ _ _ _ _ Hget) as [Hcr|[? _]]; [|done].
  eexists. split.
  - unfold IsInAdminGroup, try_except, mbind, M_bind at 1.
    rewrite Hget. unfold_run. simpl. rewrite Hd, Hcr. reflexivity.
  - simpl. rewrite lookup_delete_eq, count_events_app, Hc1. by repeat split.
Qed.

Lemma setting_truthy_Some g : g ≠ "" → setting_truthy (Some g) = true.
Proof.
  intros Hg. simpl. apply negb_true_iff. by apply String.eqb_neq.
Qed.

(** C3, for a domain whose [admin_group] is configured.  When the
    admin-email cache entry of the domain is present, the empty list
    included, [IsInAdminGroup] on a user who is not a domain admin returns
    whether the email of the user is in the cached sequence, and makes no
    group-members listing call. *)
Theorem IsInAdminGroup_cache_hit user w user_info w1 t1 g cached time :
  GetUserInfo lib (email user) w = (Ok user_info, w1, t1) →
  truthy (dict_get user_info "isAdmin" (PStr "")) = false →
  settings w !! "admin_group" = Some g → g ≠ "" →
  memcache w !! admins_key (CURRENT_DOMAIN w) = Some (cached, time) →
  let t := t1 ++ [EvLog Debug "Checking if %s is in admin group." [nickname user];
                  EvSettingGet "admin_group";
                  EvMemcacheGet (admins_key (CURRENT_DOMAIN w));
                  EvLog Debug "Admin info is found in memcache." []] in
  ∃ b : bool,
    IsInAdminGroup lib user w = (Ok b, w1, t) ∧
    (b = true ↔ PStr (email user) ∈ cached) ∧
    count_events is_members_list t = 0%nat ∧
    memcache w1 = memcache w.
Proof.
  intros Hget Hadmin Hset Hg Hhit t. subst t.
  pose proof (GetUserInfo_frame _ _ _ _ _ Hget) as (Hd & _ & Hs & Hmc & _ & Hc2).
  exists (py_in (email user) cached). split; [|split; [apply py_in_spec|]].
  - unfold IsInAdminGroup, try_except, mbind, M_bind at 1.
    rewrite Hget, Hadmin. unfold_run. simpl.
    rewrite Hs, Hset, (setting_truthy_Some _ Hg). simpl.
    rewrite Hd, admins_key_eq, Hmc, Hhit. simpl.
    by destruct (py_in (email user) cached).
  - rewrite count_events_app, Hc2. by split.
Qed.

Lemma append_emails_spec members emails admin_emails :
  Forall2 member_email members emails →
  append_emails admin_emails members = Ok (admin_emails ++ emails).
Proof.
  intros H. revert admin_emails.
  induction H as [|member e members emails (d & -> & Hd) _ IH]; intros acc; simpl.
  - by rewrite app_nil_r.
  - rewrite Hd, IH. by rewrite <- app_assoc.
Qed.

(** C2, for a listing that answers.  In a domain whose [admin_group] is
    configured, when the admin-email cache entry is absent, the service is
    built and the listing call answers with a [members] list of records
    that each carry an [email], [IsInAdminGroup] on a user who is not a
    domain admin makes exactly one group-members listing call, stores the
    emails of the listed members under [{domain}:admins] with an expiration
    of 600 seconds, and returns whether the email of the user is among
    them. *)
Theorem IsInAdminGroup_cache_miss
    user w user_info w1 t1 g service w2 t2 admin_group_info e3 members emails :
  GetUserInfo lib (email user) w = (Ok user_info, w1, t1) →
  truthy (dict_get user_info "isAdmin" (PStr "")) = false →
  settings w !! "admin_group" = Some g → g ≠ "" →
  memcache w !! admins_key (CURRENT_DOMAIN w) = None →
  BuildService lib None w1 = (Ok service, w2, t2) →
  members_list_execute lib service (Some g) (remote w2) = (Ok admin_group_info, e3) →
  admin_group_info !! "members" = Some (PList members) →
  Forall2 member_email members emails →
  let key := admins_key (CURRENT_DOMAIN w) in
  let t := t1 ++ [EvLog Debug "Checking if %s is in admin group." [nickname user];
                  EvSettingGet "admin_group";
                  EvMemcacheGet key;
                  EvLog Debug "Admin info is not found in memcache." []]
              ++ t2
              ++ [EvSettingGet "admin_group";
                  EvMembersList (Some g) (Ok admin_group_info);
                  EvMemcacheSet key emails 600] in
  ∃ b : bool,
    IsInAdminGroup lib user w =
      (Ok b, set_memcache (<[key := (emails, 600)]> (memcache w)) (set_remote e3 w), t) ∧
    (b = true ↔ PStr (email user) ∈ emails) ∧
    count_events is_members_list t = 1%nat.
Proof.
  intros Hget Hadmin Hset Hg Hmiss Hbuild Hlist Hmembers Hemails key t.
  subst key t.
  pose proof (GetUserInfo_frame _ _ _ _ _ Hget) as (Hd & _ & Hs & Hmc & _ & Hc1).
  pose proof (BuildService_frame _ _ _ _ _ Hbuild) as (Hd2 & _ & Hs2 & Hmc2 & _ & Hc2).
  apply GetUserInfo_Ok in Hget as Hw1. destruct Hw1 as [Hw1 _].
  apply BuildService_Ok in Hbuild as Hw2. destruct Hw2 as [Hw2 _].
  exists (py_in (email user) emails). split; [|split; [apply py_in_spec|]].
  - step_run. rewrite Hget, Hadmin. cbn -[BuildService].
    rewrite Hs, Hset, (setting_truthy_Some _ Hg). cbn -[BuildService].
    rewrite Hd, admins_key_eq, Hmc, Hmiss. cbn -[BuildService].
    rewrite Hbuild. cbn. rewrite Hs2, Hs, Hset, Hlist. cbn.
    rewrite Hmembers. cbn. rewrite (append_emails_spec _ _ _ Hemails). cbn.
    rewrite Hd2, Hd, admins_key_eq, Hmc2, Hmc. unfold py_in.
    assert (set_remote e3 w2 = set_remote e3 w) as ->.
    { rewrite Hw2, Hw1. by destruct w. }
    destruct (existsb _ emails); cbn; by rewrite app_nil_r.
  - rewrite !count_events_app, Hc1, Hc2. done.
Qed.

(** C9.  When the group-members listing call on the cache-miss path
    raises [AccessTokenRefreshError], the error reaches the caller as it
    is: [SetupNeeded] is not raised, the stored credentials are not deleted,
    and only the external state has moved. *)
Theorem IsInAdminGroup_listing_refresh_error
    user w user_info w1 t1 g service w2 t2 msg e3 :
  GetUserInfo lib (email user) w = (Ok user_info, w1, t1) →
  truthy (dict_get user_info "isAdmin" (PStr "")) = false →
  settings w !! "admin_group" = Some g → g ≠ "" →
  memcache w !! admins_key (CURRENT_DOMAIN w) = None →
  BuildService lib None w1 = (Ok service, w2, t2) →
  members_list_execute lib service (Some g) (remote w2)
    = (Raise (AccessTokenRefreshError msg), e3) →
  let t := t1 ++ [EvLog Debug "Checking if %s is in admin group." [nickname user];
                  EvSettingGet "admin_group";
                  EvMemcacheGet (admins_key (CURRENT_DOMAIN w));
                  EvLog Debug "Admin info is not found in memcache." []]
              ++ t2
              ++ [EvSettingGet "admin_group";
                  EvMembersList (Some g) (Raise (AccessTokenRefreshError msg))] in
  IsInAdminGroup lib user w = (Raise (AccessTokenRefreshError msg), set_remote e3 w, t) ∧
  credentials_model (set_remote e3 w) = credentials_model w ∧
  memcache (set_remote e3 w) = memcache w ∧
  count_events is_credentials_delete t = 0%nat.
Proof.
  intros Hget Hadmin Hset Hg Hmiss Hbuild Hlist t. subst t.
  pose proof (GetUserInfo_frame _ _ _ _ _ Hget) as (Hd & _ & Hs & Hmc & _ & _).
  pose proof (BuildService_frame _ _ _ _ _ Hbuild) as (_ & _ & Hs2 & _ & _ & _).
  apply GetUserInfo_Ok in Hget as Hw1. destruct Hw1 as [Hw1 Hc1].
  apply BuildService_Ok in Hbuild as Hw2. destruct Hw2 as [Hw2 Hc2].
  split; [|rewrite !count_events_app, Hc1, Hc2; by repeat split].
  step_run. rewrite Hget, Hadmin. cbn -[BuildService].
  rewrite Hs, Hset, (setting_truthy_Some _ Hg). cbn -[BuildService].
  rewrite Hd, admins_key_eq, Hmc, Hmiss. cbn -[BuildService].
  rewrite Hbuild. cbn. rewrite Hs2, Hs, Hset, Hlist. cbn.
  assert (set_remote e3 w2 = set_remote e3 w) as ->.
  { rewrite Hw2, Hw1. by destruct w. }
  reflexivity.
Qed.

(** C10.  The domain-admin test is a truth test with the empty string as
    default.  A record without [isAdmin], or with a value under it whose
    truth value is false, sends the check down the group membership path:
    the configuration error when [admin_group] is missing or empty, else the
    answer from the cached list, else the answer from the list
    [_GetAdminEmails] fetches, or its exception.  A record with any true
    value under it makes [IsInAdminGroup] return [True] at once.  The false
    values are exactly [None], [False], [0], [''], [[]] and [{}]; every
    other value, a non-empty string included, is true. *)
Theorem IsInAdminGroup_isAdmin_truthiness user w user_info w1 t1 :
  GetUserInfo lib (email user) w = (Ok user_info, w1, t1) →
  ((user_info !! "isAdmin" = None ∨
    ∃ v, user_info !! "isAdmin" = Some v ∧ truthy v = false) →
   let key := admins_key (CURRENT_DOMAIN w) in
   let checking :=
     [EvLog Debug "Checking if %s is in admin group." [nickname user];
      EvSettingGet "admin_group"] in
   IsInAdminGroup lib user w =
     match settings w !! "admin_group" with
     | None | Some "" =>
         (Raise (PyException "You must configure ADMIN_GROUP in config.py"),
          w1, t1 ++ checking)
     | Some _ =>
         match memcache w !! key with
         | Some (cached, _) =>
             (Ok (py_in (email user) cached), w1,
              t1 ++ checking
                 ++ [EvMemcacheGet key;
                     EvLog Debug "Admin info is found in memcache." []])
         | None =>
             match _GetAdminEmails lib w1 with
             | (Ok admin_emails, w', t) =>
                 (Ok (py_in (email user) admin_emails), w',
                  t1 ++ checking
                     ++ [EvMemcacheGet key;
                         EvLog Debug "Admin info is not found in memcache." []]
                     ++ t)
             | (Raise e, w', t) =>
                 (Raise e, w',
                  t1 ++ checking
                     ++ [EvMemcacheGet key;
                         EvLog Debug "Admin info is not found in memcache." []]
                     ++ t)
             end
         end
     end) ∧
  (∀ v, user_info !! "isAdmin" = Some v → truthy v = true →
     IsInAdminGroup lib user w =
       (Ok true, w1, t1 ++ [EvLog Info "user is a domain admin" []])) ∧
  (∀ v, truthy v = false ↔
        v = PNone ∨ v = PBool false ∨ v = PInt 0 ∨ v = PStr "" ∨
        v = PList [] ∨ v = PDict ∅).
Proof.
  intros Hget. split; [|split].
  - intros Hfalsy key checking. subst key checking.
    assert (truthy (dict_get user_info "isAdmin" (PStr "")) = false) as Hadmin.
    { unfold dict_get. by destruct Hfalsy as [-> | (v & -> & ?)]. }
    pose proof Hget as Hf.
    apply GetUserInfo_frame in Hf as (Hd & _ & Hs & Hmc & _ & _).
    unfold IsInAdminGroup.
    repeat progress
      unfold try_except, mbind, M_bind, mret, M_ret, raise, gets, emit,
        logging_debug, Setting_get, memcache_get.
    rewrite Hget, Hadmin. cbn -[_GetAdminEmails]. rewrite Hs.
    destruct (settings w !! "admin_group") as [g|]; [|reflexivity].
    destruct g as [|c g]; [reflexivity|]. cbn -[_GetAdminEmails].
    rewrite Hd, admins_key_eq, Hmc.
    destruct (memcache w !! admins_key (CURRENT_DOMAIN w)) as [[cached time]|];
      cbn -[_GetAdminEmails].
    + unfold py_in. by destruct (existsb _ cached).
    + destruct (_GetAdminEmails lib w1) as [[[admin_emails|e] w'] t]; [|done].
      unfold py_in. destruct (existsb _ admin_emails); cbn; by rewrite app_nil_r.
  - intros v Hv Htrue. step_run. rewrite Hget. unfold dict_get.
    rewrite Hv, Htrue. reflexivity.
  - intros v. split.
    + destruct v as [|b|n|s|l|d]; simpl; intros H.
      * by left.
      * right. left. by rewrite H.
      * apply negb_false_iff, Z.eqb_eq in H. do 2 right. left. by rewrite H.
      * apply negb_false_iff, String.eqb_eq in H. do 3 right. left. by rewrite H.
      * destruct l; [|discriminate]. do 4 right. by left.
      * apply negb_false_iff, bool_decide_eq_true in H. do 5 right. by rewrite H.
    + intros [-> | [-> | [-> | [-> | [-> | ->]]]]]; done.
Qed.

(** ** The admin group listing *)

(** The statements of the module in a hypothesis, leaving the calls to
    [GetUserInfo], [BuildService] and [_GetAdminEmails] folded. *)
Ltac step_in H :=
  repeat progress
    unfold try_except, mbind, M_bind, mret, M_ret, raise, gets, emit, lift,
      logging_debug, logging_info, CredentialsModel_Key_delete, Setting_get,
      memcache_get, memcache_set, members_list, users_get, users_update in H.

Lemma append_emails_inv members admin_emails out :
  append_emails admin_emails members = Ok out →
  ∃ emails, out = admin_emails ++ emails ∧ Forall2 member_email members emails.
Proof.
  revert admin_emails.
  induction members as [|member members IH]; intros acc H; simpl in H.
  - exists []. split; [|constructor]. rewrite app_nil_r. congruence.
  - destruct (py_getitem member "email") as [e|ex] eqn:He; [|discriminate].
    apply IH in H as (emails & -> & Hall).
    exists (e :: emails). split; [by rewrite <- app_assoc|].
    constructor; [|done].
    destruct member; simpl in He; try discriminate.
    destruct (d !! "email") eqn:Hd; [|discriminate].
    exists d. split; congruence.
Qed.

(** Every way [_GetAdminEmails] can end.  It returns only after the
    service was built, the listing answered, every member gave its email and
    the list went into the cache; before that point it raises with the
    cache as it was. *)
Lemma GetAdminEmails_inv w r w' t :
  _GetAdminEmails lib w = (r, w', t) →
  CURRENT_DOMAIN w' = CURRENT_DOMAIN w ∧ SERVICE_ACCOUNT w' = SERVICE_ACCOUNT w ∧
  settings w' = settings w ∧
  (count_events is_members_list t ≤ 1)%nat ∧
  match r with
  | Ok emails =>
      memcache w' =
        <[admins_key (CURRENT_DOMAIN w) := (emails, MEMCACHE_EXPIRATION_TIME_IN_SECONDS)]>
          (memcache w) ∧
      credentials_model w' = credentials_model w ∧
      count_events is_members_list t = 1%nat ∧
      ∃ admin_group_info listed members,
        EvMembersList (settings w !! "admin_group") (Ok admin_group_info) ∈ t ∧
        admin_group_info !! "members" = Some listed ∧
        py_iter listed = Ok members ∧
        Forall2 member_email members emails
  | Raise e =>
      memcache w' = memcache w ∧
      count_events is_memcache_event t = 0%nat ∧
      (credentials_model w' = credentials_model w ∨
       (e = PyException INVALID_PEM_MESSAGE ∧
        credentials_model w' = delete (CURRENT_DOMAIN w) (credentials_model w)))
  end.
Proof.
  intros H. unfold _GetAdminEmails in H. step_in H.
  destruct (BuildService lib None w) as [[rb wb] tb] eqn:Hb.
  pose proof Hb as Hf. apply BuildService_frame in Hf as (Hd & Hsa & Hs & Hmc & Hc1 & Hc2).
  pose proof Hb as Hcr. apply BuildService_credentials in Hcr.
  destruct rb as [service|ex].
  - apply BuildService_Ok in Hb as [Hw _]. clear Hcr.
    assert (credentials_model wb = credentials_model w) as Hcr by by rewrite Hw.
    destruct (members_list_execute lib service (settings wb !! "admin_group") (remote wb))
      as [[info|ex] e3] eqn:Hl; simpl in H.
    + destruct (info !! "members") as [listed|] eqn:Hm; simpl in H.
      * destruct (py_iter listed) as [members|ex] eqn:Hi; simpl in H.
        -- destruct (append_emails [] members) as [emails|ex] eqn:Ha; simpl in H.
           ++ simplify_eq. simpl. rewrite !count_events_app, Hc2, Hd, admins_key_eq. simpl.
              apply append_emails_inv in Ha as (emails' & -> & Hall).
              split_and!; try done; try lia; [by rewrite Hmc|].
              exists info, listed, members. rewrite <- Hs. split_and!; try done.
              apply elem_of_app. right. right. left.
           ++ simplify_eq. simpl. rewrite !count_events_app, Hc1, Hc2. simpl.
              split_and!; try done; try lia. by left.
        -- simplify_eq. simpl. rewrite !count_events_app, Hc1, Hc2. simpl.
           split_and!; try done; try lia. by left.
      * simplify_eq. simpl. rewrite !count_events_app, Hc1, Hc2. simpl.
        split_and!; try done; try lia. by left.
    + simplify_eq. simpl. rewrite !count_events_app, Hc1, Hc2. simpl.
      split_and!; try done; try lia. by left.
  - simplify_eq. rewrite Hc1, Hc2. split_and!; try done; try lia.
    destruct Hcr as [?|[[= ->] ?]]; auto.
Qed.

(** Every way [IsInAdminGroup] can end, by the outcome of the get-user
    call, the admin flag, the setting and the cache entry. *)
Lemma IsInAdminGroup_inv user w r w' t :
  IsInAdminGroup lib user w = (r, w', t) →
  ∃ rg w1 t1,
    GetUserInfo lib (email user) w = (rg, w1, t1) ∧
    match rg with
    | Raise (AccessTokenRefreshError _) =>
        r = Raise (SetupNeeded "oauth token no longer valid") ∧
        w' = set_credentials_model
               (delete (CURRENT_DOMAIN w1) (credentials_model w1)) w1 ∧
        t = t1 ++ [EvCredentialsDelete (CURRENT_DOMAIN w1)]
    | Raise e => r = Raise e ∧ w' = w1 ∧ t = t1
    | Ok user_info =>
        if truthy (dict_get user_info "isAdmin" (PStr "")) then
          r = Ok true ∧ w' = w1 ∧
          t = t1 ++ [EvLog Info "user is a domain admin" []]
        else if negb (setting_truthy (settings w1 !! "admin_group")) then
          r = Raise (PyException "You must configure ADMIN_GROUP in config.py") ∧
          w' = w1 ∧
          t = t1 ++ [EvLog Debug "Checking if %s is in admin group." [nickname user];
                     EvSettingGet "admin_group"]
        else
          match memcache w1 !! admins_key (CURRENT_DOMAIN w1) with
          | Some (cached, _) =>
              r = Ok (py_in (email user) cached) ∧ w' = w1 ∧
              t = t1 ++ [EvLog Debug "Checking if %s is in admin group." [nickname user];
                         EvSettingGet "admin_group";
                         EvMemcacheGet (admins_key (CURRENT_DOMAIN w1));
                         EvLog Debug "Admin info is found in memcache." []]
          | None =>
              ∃ ra ta,
                _GetAdminEmails lib w1 = (ra, w', ta) ∧
                r = match ra with
                    | Ok admin_emails => Ok (py_in (email user) admin_emails)
                    | Raise e => Raise e
                    end ∧
                t = t1 ++ [EvLog Debug "Checking if %s is in admin group." [nickname user];
                           EvSettingGet "admin_group";
                           EvMemcacheGet (admins_key (CURRENT_DOMAIN w1));
                           EvLog Debug "Admin info is not found in memcache." []]
                       ++ ta
          end
    end.
Proof.
  intros H. unfold IsInAdminGroup in H. step_in H.
  destruct (GetUserInfo lib (email user) w) as [[rg w1] t1] eqn:Hg.
  exists rg, w1, t1. split; [done|].
  destruct rg as [user_info|ex].
  - destruct (truthy (dict_get user_info "isAdmin" (PStr ""))); [by simplify_eq|].
    cbn -[_GetAdminEmails] in H.
    destruct (negb (setting_truthy (settings w1 !! "admin_group"))); [by simplify_eq|].
    cbn -[_GetAdminEmails] in H. rewrite admins_key_eq in H.
    destruct (memcache w1 !! admins_key (CURRENT_DOMAIN w1)) as [[cached time]|];
      cbn -[_GetAdminEmails] in H.
    + unfold py_in. destruct (existsb _ cached); by simplify_eq.
    + destruct (_GetAdminEmails lib w1) as [[ra wa] ta] eqn:Ha.
      destruct ra as [admin_emails|ex]; [|simplify_eq; by eexists _, _].
      unfold py_in in *.
      destruct (existsb _ admin_emails) eqn:Hin; simplify_eq;
        eexists _, _; (split; [done|]); unfold py_in; rewrite Hin, app_nil_r; done.
  - destruct ex; by simplify_eq.
Qed.


Lemma append_emails_missing_email before after d emails admin_emails :
  Forall2 member_email before emails →
  d !! "email" = None →
  append_emails admin_emails (before ++ PDict d :: after) = Raise (KeyError "email").
Proof.
  intros H Hd. revert admin_emails.
  induction H as [|member e before emails (d' & -> & Hd') _ IH]; intros acc; simpl.
  - by rewrite Hd.
  - by rewrite Hd', IH.
Qed.

Lemma GetUserInfo_answer_logged user_email w user_info w1 t :
  GetUserInfo lib user_email w = (Ok user_info, w1, t) →
  EvUsersGet user_email (Ok user_info) ∈ t.
Proof.
  intros H. unfold GetUserInfo in H. step_in H.
  destruct (BuildService lib None w) as [[rb wb] tb] eqn:Hb. clear Hb.
  split_run. right. apply elem_of_app. right. left.
Qed.

(** X1.  A list returned by [_GetAdminEmails] is the list the cache now
    holds under [{domain}:admins], with an expiration of 600 seconds; no
    other cache key has changed, the stored credentials are as they were,
    exactly one listing call was made, and the list holds the [email] field
    of every listed member, in the order of the listing. *)
Theorem GetAdminEmails_caches_what_it_returns w emails w' t :
  _GetAdminEmails lib w = (Ok emails, w', t) →
  memcache w' !! admins_key (CURRENT_DOMAIN w) = Some (emails, 600) ∧
  (∀ key, key ≠ admins_key (CURRENT_DOMAIN w) → memcache w' !! key = memcache w !! key) ∧
  credentials_model w' = credentials_model w ∧
  count_events is_members_list t = 1%nat ∧
  ∃ admin_group_info listed members,
    EvMembersList (settings w !! "admin_group") (Ok admin_group_info) ∈ t ∧
    admin_group_info !! "members" = Some listed ∧
    py_iter listed = Ok members ∧
    Forall2 member_email members emails.
Proof.
  intros H. apply GetAdminEmails_inv in H as (_ & _ & _ & _ & Hmc & Hcr & Hc & Hex).
  rewrite Hmc. split_and!; try done.
  - apply lookup_insert_eq.
  - intros key Hkey. by apply lookup_insert_ne.
Qed.

(** X2.  When [_GetAdminEmails] raises, whatever the reason, the cache is
    as it was: no cache entry is read or written, and at most one listing
    call was made. *)
Theorem GetAdminEmails_failure_keeps_cache w e w' t :
  _GetAdminEmails lib w = (Raise e, w', t) →
  memcache w' = memcache w ∧
  count_events is_memcache_event t = 0%nat ∧
  (count_events is_members_list t ≤ 1)%nat.
Proof.
  intros H. apply GetAdminEmails_inv in H as (_ & _ & _ & Hc & Hmc & Hc' & _).
  done.
Qed.

(** X3.  A listing that answers without a [members] key, as the directory
    does for a group with no members, makes [IsInAdminGroup] raise
    [KeyError] on the cache-miss path instead of returning [False]; nothing
    is cached and the stored credentials stay. *)
Theorem IsInAdminGroup_listing_without_members
    user w user_info w1 t1 g service w2 t2 admin_group_info e3 :
  GetUserInfo lib (email user) w = (Ok user_info, w1, t1) →
  truthy (dict_get user_info "isAdmin" (PStr "")) = false →
  settings w !! "admin_group" = Some g → g ≠ "" →
  memcache w !! admins_key (CURRENT_DOMAIN w) = None →
  BuildService lib None w1 = (Ok service, w2, t2) →
  members_list_execute lib service (Some g) (remote w2) = (Ok admin_group_info, e3) →
  admin_group_info !! "members" = None →
  let t := t1 ++ [EvLog Debug "Checking if %s is in admin group." [nickname user];
                  EvSettingGet "admin_group";
                  EvMemcacheGet (admins_key (CURRENT_DOMAIN w));
                  EvLog Debug "Admin info is not found in memcache." []]
              ++ t2
              ++ [EvSettingGet "admin_group";
                  EvMembersList (Some g) (Ok admin_group_info)] in
  IsInAdminGroup lib user w = (Raise (KeyError "members"), set_remote e3 w, t) ∧
  memcache (set_remote e3 w) = memcache w ∧
  credentials_model (set_remote e3 w) = credentials_model w.
Proof.
  intros Hget Hadmin Hset Hg Hmiss Hbuild Hlist Hmembers t. subst t.
  pose proof Hget as Hf. apply GetUserInfo_frame in Hf as (Hd & _ & Hs & Hmc & Hc1 & _).
  pose proof Hbuild as Hf. apply BuildService_frame in Hf as (_ & _ & Hs2 & _ & Hc2 & _).
  pose proof Hget as Hw1. apply GetUserInfo_Ok in Hw1 as [Hw1 _].
  pose proof Hbuild as Hw2. apply BuildService_Ok in Hw2 as [Hw2 _].
  split; [|done].
  step_run. rewrite Hget, Hadmin. cbn -[BuildService].
  rewrite Hs, Hset, (setting_truthy_Some _ Hg). cbn -[BuildService].
  rewrite Hd, admins_key_eq, Hmc, Hmiss. cbn -[BuildService].
  rewrite Hbuild. cbn. rewrite Hs2, Hs, Hset, Hlist. cbn.
  rewrite Hmembers. cbn.
  assert (set_remote e3 w2 = set_remote e3 w) as ->.
  { rewrite Hw2, Hw1. by destruct w. }
  reflexivity.
Qed.

(** X4.  One listed member without an [email] field makes
    [_GetAdminEmails] raise [KeyError]: the emails of the members before it
    are dropped and nothing is cached. *)
Theorem GetAdminEmails_member_without_email
    w service w1 t1 admin_group_info e2 before d after emails :
  BuildService lib None w = (Ok service, w1, t1) →
  members_list_execute lib service (settings w !! "admin_group") (remote w1)
    = (Ok admin_group_info, e2) →
  admin_group_info !! "members" = Some (PList (before ++ PDict d :: after)) →
  Forall2 member_email before emails →
  d !! "email" = None →
  _GetAdminEmails lib w =
    (Raise (KeyError "email"), set_remote e2 w,
     t1 ++ [EvSettingGet "admin_group";
            EvMembersList (settings w !! "admin_group") (Ok admin_group_info)]) ∧
  memcache (set_remote e2 w) = memcache w.
Proof.
  intros Hbuild Hlist Hmembers Hbefore Hd. split; [|done].
  pose proof Hbuild as Hf. apply BuildService_frame in Hf as (_ & _ & Hs & _ & _ & _).
  pose proof Hbuild as Hw. apply BuildService_Ok in Hw as [Hw _].
  step_run. rewrite Hbuild. cbn. rewrite Hs, Hlist. cbn. rewrite Hmembers. cbn.
  rewrite (append_emails_missing_email _ _ _ _ _ Hbefore Hd). cbn.
  assert (set_remote e2 w1 = set_remote e2 w) as ->.
  { rewrite Hw. by destruct w. }
  reflexivity.
Qed.

(** X5.  A call of [IsInAdminGroup] that fetched the listing fills the
    cache for the next one.  The emails of the members the listing call
    answered with are what the cache then holds under [{domain}:admins],
    the answer of the call says whether the user is among them, and in the
    state the call leaves, a call for any user who is not a domain admin
    answers from that list and makes no listing call. *)
Theorem IsInAdminGroup_miss_then_hit user w b w' t other user_info w1 t1 :
  IsInAdminGroup lib user w = (Ok b, w', t) →
  count_events is_members_list t = 1%nat →
  GetUserInfo lib (email other) w' = (Ok user_info, w1, t1) →
  truthy (dict_get user_info "isAdmin" (PStr "")) = false →
  ∃ admin_group_info listed members emails t',
    EvMembersList (settings w !! "admin_group") (Ok admin_group_info) ∈ t ∧
    admin_group_info !! "members" = Some listed ∧
    py_iter listed = Ok members ∧
    Forall2 member_email members emails ∧
    b = py_in (email user) emails ∧
    memcache w' !! admins_key (CURRENT_DOMAIN w) = Some (emails, 600) ∧
    IsInAdminGroup lib other w' = (Ok (py_in (email other) emails), w1, t') ∧
    count_events is_members_list t' = 0%nat ∧
    memcache w1 = memcache w'.
Proof.
  intros Hrun Hcount Hget Hadmin.
  apply IsInAdminGroup_inv in Hrun as (rg & v1 & s1 & Hg & Hcase).
  pose proof Hg as Hf. apply GetUserInfo_frame in Hf as (Hd & _ & Hs & _ & _ & Hc).
  destruct rg as [info|ex]; [|destruct ex; by destruct Hcase].
  destruct (truthy (dict_get info "isAdmin" (PStr ""))).
  { destruct Hcase as (_ & _ & ->). rewrite count_events_app, Hc in Hcount. done. }
  destruct (negb (setting_truthy (settings v1 !! "admin_group"))) eqn:Hset;
    [by destruct Hcase|].
  destruct (memcache v1 !! admins_key (CURRENT_DOMAIN v1)) as [[cached time]|].
  { destruct Hcase as (_ & _ & ->). rewrite count_events_app, Hc in Hcount. done. }
  destruct Hcase as (ra & ta & Hfill & Hr & ->).
  destruct ra as [emails|ex]; [|done]. injection Hr as ->.
  apply GetAdminEmails_inv in Hfill
    as (Hd' & _ & Hs' & _ & Hmc & _ & _ & (listing & listed & members & Hin & Hm & Hi & Hall)).
  pose proof Hget as Hf. apply GetUserInfo_frame in Hf as (Hd2 & _ & Hs2 & Hmc2 & _ & Hc2).
  assert (memcache w' !! admins_key (CURRENT_DOMAIN w) = Some (emails, 600)) as Hhit.
  { rewrite Hmc, Hd. apply lookup_insert_eq. }
  exists listing, listed, members, emails. eexists.
  split_and!;
    [ | exact Hm | exact Hi | exact Hall | reflexivity | exact Hhit | | | exact Hmc2 ].
  - rewrite <- Hs. apply elem_of_app. right. by do 4 right.
  - step_run. rewrite Hget, Hadmin. cbn.
    rewrite Hs2, Hs', Hset. cbn.
    rewrite Hd2, Hd', Hd, admins_key_eq, Hmc2, Hhit. cbn.
    unfold py_in. destruct (existsb _ emails); reflexivity.
  - rewrite count_events_app, Hc2. done.
Qed.

(** X6.  A failure of the get-user call other than
    [AccessTokenRefreshError] leaves [IsInAdminGroup] as it is: same
    exception, same state, no event added; the admin flag, the setting and
    the cache are never looked at. *)
Theorem IsInAdminGroup_other_failure_propagates user w e w1 t1 :
  GetUserInfo lib (email user) w = (Raise e, w1, t1) →
  (∀ msg, e ≠ AccessTokenRefreshError msg) →
  IsInAdminGroup lib user w = (Raise e, w1, t1) ∧
  memcache w1 = memcache w ∧
  count_events is_memcache_event t1 = 0%nat ∧
  count_events is_members_list t1 = 0%nat.
Proof.
  intros Hget Hne.
  pose proof Hget as Hf. apply GetUserInfo_frame in Hf as (_ & _ & _ & Hmc & Hc1 & Hc2).
  split; [|done].
  unfold IsInAdminGroup, try_except, mbind, M_bind at 1. rewrite Hget.
  destruct e; try done. by destruct (Hne msg).
Qed.

(** X7.  In a domain with no stored credentials and no service-account
    mode, every operation of the module raises [SetupNeeded] right after the
    credential lookup: nothing leaves the process and no store changes. *)
Theorem operations_need_setup w :
  credentials_model w !! CURRENT_DOMAIN w = None →
  SERVICE_ACCOUNT w = false →
  let needed := SetupNeeded "Credentials not in storage" in
  BuildService lib None w = (Raise needed, w, [EvStorageGet (CURRENT_DOMAIN w)]) ∧
  (∀ user_email,
     GetUserInfo lib user_email w =
       (Raise needed, w,
        [EvLog Debug "Getting domain info for %s." [user_email];
         EvStorageGet (CURRENT_DOMAIN w)])) ∧
  (∀ user_email new_user_info,
     UpdateUserInfo lib user_email new_user_info w =
       (Raise needed, w,
        [EvLog Debug "Updating domain info for %s." [user_email];
         EvStorageGet (CURRENT_DOMAIN w)])) ∧
  _GetAdminEmails lib w = (Raise needed, w, [EvStorageGet (CURRENT_DOMAIN w)]) ∧
  (∀ user,
     IsInAdminGroup lib user w =
       (Raise needed, w,
        [EvLog Debug "Getting domain info for %s." [email user];
         EvStorageGet (CURRENT_DOMAIN w)])).
Proof.
  intros Hc Hsa needed. subst needed.
  assert (BuildService lib None w =
            (Raise (SetupNeeded "Credentials not in storage"), w,
             [EvStorageGet (CURRENT_DOMAIN w)])) as Hb.
  { unfold_run. simpl. by rewrite Hc, Hsa. }
  split; [done|]. split_and!.
  - intros user_email. unfold GetUserInfo. step_run. by rewrite Hb.
  - intros user_email body. unfold UpdateUserInfo. step_run. by rewrite Hb.
  - step_run. by rewrite Hb.
  - intros user. unfold IsInAdminGroup, GetUserInfo. step_run. by rewrite Hb.
Qed.

(** X8.  [UpdateUserInfo] touches neither the cache nor the settings and
    makes no listing call; the only update it sends is the one it was asked
    for; and when it returns, that update was sent and the stored
    credentials are as they were. *)
Theorem UpdateUserInfo_footprint user_email new_user_info w r w' t :
  UpdateUserInfo lib user_email new_user_info w = (r, w', t) →
  memcache w' = memcache w ∧ settings w' = settings w ∧
  count_events is_memcache_event t = 0%nat ∧
  count_events is_members_list t = 0%nat ∧
  (∀ userKey body, EvUsersUpdate userKey body ∈ t →
     userKey = user_email ∧ body = new_user_info) ∧
  (r = Ok tt →
     EvUsersUpdate user_email new_user_info ∈ t ∧
     credentials_model w' = credentials_model w).
Proof.
  intros H. unfold UpdateUserInfo in H. step_in H.
  destruct (BuildService lib None w) as [[rb wb] tb] eqn:Hb.
  pose proof Hb as Hf. apply BuildService_frame in Hf as (_ & _ & Hs & Hmc & Hc1 & Hc2).
  assert (∀ userKey body, EvUsersUpdate userKey body ∉ tb) as Hno.
  { clear -Hb. intros userKey body Hin. unfold_run. split_run;
      repeat (apply elem_of_cons in Hin as [Hin|Hin]; [discriminate|]);
      by apply elem_of_nil in Hin. }
  destruct rb as [service|ex].
  - apply BuildService_Ok in Hb as [Hw _].
    destruct (users_update_execute lib service user_email new_user_info (remote wb))
      as [ru e2] eqn:Hu.
    simplify_eq/=. rewrite !count_events_app, Hc1, Hc2. split_and!; try done.
    + intros userKey body Hin.
      apply elem_of_cons in Hin as [?|Hin]; [discriminate|].
      apply elem_of_app in Hin as [Hin|Hin]; [by apply Hno in Hin|].
      apply list_elem_of_singleton in Hin. by simplify_eq.
    + intros _. split; [|by rewrite Hw].
      right. apply elem_of_app. right. left.
  - simplify_eq/=. rewrite Hc1, Hc2. split_and!; try done.
    intros userKey body Hin.
    apply elem_of_cons in Hin as [?|Hin]; [discriminate|]. by apply Hno in Hin.
Qed.

(** X9.  A failure of the remote update call reaches the caller of
    [UpdateUserInfo] as it is, [AccessTokenRefreshError] included: the
    stored credentials are not deleted and [SetupNeeded] is not raised. *)
Theorem UpdateUserInfo_failure_propagates
    user_email new_user_info w service w1 t1 e e2 :
  BuildService lib None w = (Ok service, w1, t1) →
  users_update_execute lib service user_email new_user_info (remote w1) = (Raise e, e2) →
  let t := EvLog Debug "Updating domain info for %s." [user_email]
             :: t1 ++ [EvUsersUpdate user_email new_user_info] in
  UpdateUserInfo lib user_email new_user_info w = (Raise e, set_remote e2 w, t) ∧
  count_events is_credentials_delete t = 0%nat.
Proof.
  intros Hbuild Hupdate t. subst t.
  apply BuildService_Ok in Hbuild as Hw. destruct Hw as [Hw Hc].
  split.
  - unfold UpdateUserInfo. step_run. rewrite Hbuild. unfold users_update.
    rewrite Hupdate. cbn.
    assert (set_remote e2 w1 = set_remote e2 w) as ->.
    { rewrite Hw. by destruct w. }
    reflexivity.
  - simpl. rewrite count_events_app, Hc. done.
Qed.

(** X10.  With credentials passed in, [BuildService] neither reads the
    credential store nor loads the key file; yet when the build fails with
    [NotImplementedError] it still deletes the credentials stored for the
    current domain. *)
Theorem BuildService_explicit_credentials c w :
  match discovery_build lib API_SERVICE_NAME DIRECTORY_API_VERSION
          (authorize c) (remote w) with
  | (Raise (NotImplementedError _), e) =>
      BuildService lib (Some c) w =
        (Raise (PyException INVALID_PEM_MESSAGE),
         set_credentials_model (delete (CURRENT_DOMAIN w) (credentials_model w))
           (set_remote e w),
         [EvBuild API_SERVICE_NAME DIRECTORY_API_VERSION;
          EvCredentialsDelete (CURRENT_DOMAIN w)])
  | (r, e) =>
      BuildService lib (Some c) w =
        (r, set_remote e w, [EvBuild API_SERVICE_NAME DIRECTORY_API_VERSION])
  end.
Proof.
  unfold_run. simpl.
  destruct (discovery_build lib API_SERVICE_NAME DIRECTORY_API_VERSION _ _)
    as [[service|[]] e]; reflexivity.
Qed.

(** X11.  An [admin_group] setting that is present but empty counts as
    not configured: [IsInAdminGroup] on a user who is not a domain admin
    raises the configuration error without looking at the cache. *)
Theorem IsInAdminGroup_admin_group_empty user w user_info w1 t1 :
  GetUserInfo lib (email user) w = (Ok user_info, w1, t1) →
  truthy (dict_get user_info "isAdmin" (PStr "")) = false →
  settings w !! "admin_group" = Some "" →
  let t := t1 ++ [EvLog Debug "Checking if %s is in admin group." [nickname user];
                  EvSettingGet "admin_group"] in
  IsInAdminGroup lib user w =
    (Raise (PyException "You must configure ADMIN_GROUP in config.py"), w1, t) ∧
  count_events is_memcache_event t = 0%nat ∧
  count_events is_members_list t = 0%nat.
Proof.
  intros Hget Hadmin Hset t. subst t.
  pose proof Hget as Hf. apply GetUserInfo_frame in Hf as (_ & _ & Hs & _ & Hc1 & Hc2).
  split.
  - step_run. rewrite Hget, Hadmin. cbn. by rewrite Hs, Hset.
  - rewrite !count_events_app, Hc1, Hc2. done.
Qed.

(** X12.  Whatever its outcome, [IsInAdminGroup] leaves the settings and
    every cache key other than [{domain}:admins] as they were and makes at
    most one listing call; and when the cache entry is already there it is
    neither rewritten nor refreshed, and no listing call is made. *)
Theorem IsInAdminGroup_cache_footprint user w r w' t :
  IsInAdminGroup lib user w = (r, w', t) →
  settings w' = settings w ∧
  (∀ key, key ≠ admins_key (CURRENT_DOMAIN w) → memcache w' !! key = memcache w !! key) ∧
  (count_events is_members_list t ≤ 1)%nat ∧
  (is_Some (memcache w !! admins_key (CURRENT_DOMAIN w)) →
     memcache w' = memcache w ∧ count_events is_members_list t = 0%nat).
Proof.
  intros Hrun.
  apply IsInAdminGroup_inv in Hrun as (rg & w1 & t1 & Hg & Hcase).
  apply GetUserInfo_frame in Hg as (Hd & _ & Hs & Hmc & _ & Hc).
  assert (∀ t2, count_events is_members_list t2 = 0%nat →
                count_events is_members_list (t1 ++ t2) = 0%nat) as Happ.
  { intros t2 H2. by rewrite count_events_app, Hc, H2. }
  destruct rg as [info|ex].
  - destruct (truthy (dict_get info "isAdmin" (PStr ""))).
    { destruct Hcase as (_ & -> & ->). rewrite Happ, Hmc by done.
      split_and!; auto with lia. }
    destruct (negb (setting_truthy (settings w1 !! "admin_group"))).
    { destruct Hcase as (_ & -> & ->). rewrite Happ, Hmc by done.
      split_and!; auto with lia. }
    rewrite Hd, Hmc in Hcase.
    destruct (memcache w !! admins_key (CURRENT_DOMAIN w)) as [[cached time]|] eqn:Hkey.
    { destruct Hcase as (_ & -> & ->). rewrite Happ, Hmc by done.
      split_and!; auto with lia. }
    destruct Hcase as (ra & ta & Hfill & _ & ->).
    apply GetAdminEmails_inv in Hfill as (_ & _ & Hs' & Hle & Hmc').
    rewrite !count_events_app, Hc. simpl. split_and!.
    + congruence.
    + intros key Hkey'. destruct ra as [emails|e].
      * destruct Hmc' as [-> _]. rewrite Hd, Hmc. by apply lookup_insert_ne.
      * destruct Hmc' as [-> _]. by rewrite Hmc.
    + lia.
    + by intros [? ?].
  - assert (r = Raise (SetupNeeded "oauth token no longer valid") ∧
            memcache w' = memcache w1 ∧ settings w' = settings w1 ∧
            count_events is_members_list t = 0%nat
            ∨ w' = w1 ∧ t = t1) as [(_ & Hm & Hs' & ->)|[-> ->]].
    { destruct ex; try (right; by destruct Hcase).
      left. destruct Hcase as (-> & -> & ->). split_and!; try done.
      by apply Happ. }
    + rewrite Hm, Hs', Hmc, Hs. split_and!; auto with lia.
    + rewrite Hmc, Hs, Hc. split_and!; auto with lia.
Qed.

(** X13.  An answer of [IsInAdminGroup] always rests on what it read: the
    get-user call answered with a record, and either the [isAdmin] value
    of that record is true and the answer is [True], or the answer says
    whether the email of the user is in the list the cache holds under
    [{domain}:admins] when the call ends. *)
Theorem IsInAdminGroup_answer_grounded user w b w' t :
  IsInAdminGroup lib user w = (Ok b, w', t) →
  ∃ user_info,
    EvUsersGet (email user) (Ok user_info) ∈ t ∧
    if truthy (dict_get user_info "isAdmin" (PStr ""))
    then b = true
    else ∃ admin_emails time,
           memcache w' !! admins_key (CURRENT_DOMAIN w) = Some (admin_emails, time) ∧
           (b = true ↔ PStr (email user) ∈ admin_emails).
Proof.
  intros Hrun.
  apply IsInAdminGroup_inv in Hrun as (rg & w1 & t1 & Hg & Hcase).
  pose proof Hg as Hf. apply GetUserInfo_frame in Hf as (Hd & _ & _ & _ & _ & _).
  destruct rg as [info|ex]; [|destruct ex; by destruct Hcase].
  apply GetUserInfo_answer_logged in Hg.
  exists info.
  destruct (truthy (dict_get info "isAdmin" (PStr ""))).
  { destruct Hcase as ([= ->] & _ & ->). split; [|done].
    apply elem_of_app. by left. }
  destruct (negb (setting_truthy (settings w1 !! "admin_group")));
    [by destruct Hcase|].
  rewrite Hd in Hcase.
  destruct (memcache w1 !! admins_key (CURRENT_DOMAIN w)) as [[cached time]|] eqn:Hkey.
  - destruct Hcase as ([= ->] & -> & ->). split; [apply elem_of_app; by left|].
    exists cached, time. split; [done|]. apply py_in_spec.
  - destruct Hcase as (ra & ta & Hfill & Hr & ->).
    split; [apply elem_of_app; by left|].
    destruct ra as [emails|e]; [|done]. injection Hr as ->.
    apply GetAdminEmails_inv in Hfill as (_ & _ & _ & _ & Hmc & _).
    exists emails, MEMCACHE_EXPIRATION_TIME_IN_SECONDS. split; [|apply py_in_spec].
    rewrite Hmc, Hd. apply lookup_insert_eq.
Qed.

(** X14.  [IsInAdminGroup] never touches the credentials stored for
    another domain; it leaves the credential store as it was or deletes the
    entry of the current domain; and a run that ends with an answer has
    deleted nothing. *)
Theorem IsInAdminGroup_credentials_footprint user w r w' t :
  IsInAdminGroup lib user w = (r, w', t) →
  (credentials_model w' = credentials_model w ∨
   credentials_model w' = delete (CURRENT_DOMAIN w) (credentials_model w)) ∧
  (∀ domain, domain ≠ CURRENT_DOMAIN w →
     credentials_model w' !! domain = credentials_model w !! domain) ∧
  (∀ b, r = Ok b → credentials_model w' = credentials_model w).
Proof.
  intros Hrun.
  assert (credentials_model w' = credentials_model w ∨
          (∀ b, r ≠ Ok b) ∧
          credentials_model w' = delete (CURRENT_DOMAIN w) (credentials_model w))
    as Hcr.
  { apply IsInAdminGroup_inv in Hrun as (rg & w1 & t1 & Hg & Hcase).
    pose proof Hg as Hf. apply GetUserInfo_frame in Hf as (Hd & _ & _ & _ & _ & _).
    apply GetUserInfo_credentials in Hg as Hcr.
    destruct rg as [info|ex].
    - destruct Hcr as [Hcr|[? _]]; [|done].
      destruct (truthy (dict_get info "isAdmin" (PStr "")));
        [destruct Hcase as (_ & -> & _); by left|].
      destruct (negb (setting_truthy (settings w1 !! "admin_group")));
        [destruct Hcase as (_ & -> & _); by left|].
      destruct (memcache w1 !! admins_key (CURRENT_DOMAIN w1)) as [[cached time]|];
        [destruct Hcase as (_ & -> & _); by left|].
      destruct Hcase as (ra & ta & Hfill & -> & _).
      apply GetAdminEmails_inv in Hfill as (_ & _ & _ & _ & Hra).
      destruct ra as [emails|e].
      + destruct Hra as (_ & -> & _). by left.
      + destruct Hra as (_ & _ & [->|[_ ->]]); [by left|].
        right. split; [done|]. by rewrite Hd, Hcr.
    - destruct ex;
        try (destruct Hcase as (-> & -> & _);
             destruct Hcr as [?|[_ ?]]; [by left | by right]).
      destruct Hcase as (-> & -> & _). right. split; [done|]. simpl.
      destruct Hcr as [->|[? _]]; [|done]. by rewrite Hd. }
  split_and!.
  - destruct Hcr as [?|[_ ?]]; auto.
  - intros domain Hne. destruct Hcr as [->|[_ ->]]; [done|].
    by apply lookup_delete_ne.
  - intros b ->. destruct Hcr as [?|[Hne _]]; [done|]. by destruct (Hne b).
Qed.

(** X15.  Once a refresh failure of the get-user call has made
    [IsInAdminGroup] delete the stored credentials, and the domain is not in
    service-account mode, the next call for any user raises [SetupNeeded]
    at the credential lookup, with no call to the directory, until the
    domain is set up again. *)
Theorem IsInAdminGroup_after_invalidation user w msg w1 t1 r w' t other :
  GetUserInfo lib (email user) w = (Raise (AccessTokenRefreshError msg), w1, t1) →
  SERVICE_ACCOUNT w = false →
  IsInAdminGroup lib user w = (r, w', t) →
  IsInAdminGroup lib other w' =
    (Raise (SetupNeeded "Credentials not in storage"), w',
     [EvLog Debug "Getting domain info for %s." [email other];
      EvStorageGet (CURRENT_DOMAIN w)]).
Proof.
  intros Hget Hsa Hrun.
  apply IsInAdminGroup_inv in Hrun as (rg & v1 & s1 & Hg & Hcase).
  rewrite Hget in Hg. simplify_eq. destruct Hcase as (_ & -> & _).
  apply GetUserInfo_frame in Hget as (Hd & Hsa' & _).
  unfold IsInAdminGroup, GetUserInfo. unfold_run. simpl.
  rewrite Hd, lookup_delete_eq. simpl. rewrite Hsa', Hsa. reflexivity.
Qed.

(** X16.  [GetUserInfo] asks the directory about no email but the one it
    was given, and what it returns or raises is the outcome of that call;
    it makes no listing call and touches neither the cache nor the
    settings. *)
Theorem GetUserInfo_footprint user_email w r w' t :
  GetUserInfo lib user_email w = (r, w', t) →
  (∀ userKey res, EvUsersGet userKey res ∈ t → userKey = user_email ∧ res = r) ∧
  (∀ user_info, r = Ok user_info → EvUsersGet user_email (Ok user_info) ∈ t) ∧
  memcache w' = memcache w ∧ settings w' = settings w ∧
  count_events is_memcache_event t = 0%nat ∧
  count_events is_members_list t = 0%nat.
Proof.
  intros H.
  pose proof H as Hf. apply GetUserInfo_frame in Hf as (_ & _ & Hs & Hmc & Hc1 & Hc2).
  split_and!; try done.
  - intros userKey res Hin. unfold GetUserInfo in H. step_in H.
    destruct (BuildService lib None w) as [[rb wb] tb] eqn:Hb.
    assert (EvUsersGet userKey res ∉ tb) as Hno
      by (by eapply BuildService_no_users_get).
    clear Hb. split_run;
      (apply elem_of_cons in Hin as [?|Hin]; [discriminate|]); try done;
      (apply elem_of_app in Hin as [?|Hin]; [done|]);
      apply list_elem_of_singleton in Hin; by simplify_eq.
  - intros user_info ->. by apply GetUserInfo_answer_logged in H.
Qed.

End Properties.

(** * Runs on the scripted directory *)

(** C1 on a directory of domain admins. *)
Lemma IsInAdminGroup_domain_admin_witness :
  ∃ w1 t,
    IsInAdminGroup (Demo.scripted Demo.admins) Demo.alice Demo.world = (Ok true, w1, t) ∧
    memcache w1 = memcache Demo.world ∧
    count_events is_memcache_event t = 0%nat ∧
    count_events is_members_list t = 0%nat.
Proof.
  eexists _, _.
  eapply (IsInAdminGroup_domain_admin (Demo.scripted Demo.admins) Demo.alice Demo.world);
    reflexivity.
Defined.

(** C2 on the plain directory with nothing cached: the listing is fetched
    once and cached, and [a@x.com] is found in it. *)
Lemma IsInAdminGroup_cache_miss_witness :
  ∃ w' t,
    IsInAdminGroup (Demo.scripted Demo.plain) Demo.alice Demo.world = (Ok true, w', t) ∧
    memcache w' !! "x.com:admins" = Some ([PStr "a@x.com"], 600) ∧
    count_events is_members_list t = 1%nat.
Proof.
  edestruct (IsInAdminGroup_cache_miss (Demo.scripted Demo.plain) Demo.alice Demo.world)
    as (b & Hrun & Hiff & Hcount);
    [reflexivity | reflexivity | reflexivity | discriminate | reflexivity
    | reflexivity | reflexivity | reflexivity
    | repeat constructor; eexists; split; reflexivity |].
  assert (b = true) as -> by (apply Hiff; left).
  eexists _, _. split; [exact Hrun|]. split; [reflexivity | exact Hcount].
Defined.

(** C2 as it is worded, with no word on the listing call, fails: when
    the listing call raises, [IsInAdminGroup] returns nothing and caches
    nothing. *)
Lemma IsInAdminGroup_cache_miss_listing_fails_counterexample :
  ¬ (∀ (lib : Collaborators nat) user w user_info w1 t1 g,
       GetUserInfo lib (email user) w = (Ok user_info, w1, t1) →
       truthy (dict_get user_info "isAdmin" (PStr "")) = false →
       settings w !! "admin_group" = Some g → g ≠ "" →
       memcache w !! admins_key (CURRENT_DOMAIN w) = None →
       ∃ (b : bool) emails w' t,
         IsInAdminGroup lib user w = (Ok b, w', t) ∧
         count_events is_members_list t = 1%nat ∧
         memcache w' !! admins_key (CURRENT_DOMAIN w) = Some (emails, 600) ∧
         (b = true ↔ PStr (email user) ∈ emails)).
Proof.
  intros claim.
  edestruct (claim (Demo.scripted Demo.expired_listing) Demo.alice Demo.world)
    as (b & emails & w' & t & Hrun & _);
    [reflexivity | reflexivity | reflexivity | discriminate | reflexivity |].
  vm_compute in Hrun. discriminate Hrun.
Qed.

(** C3, as amended, on the cached list [["a@x.com", "b@x.com"]]. *)
Lemma IsInAdminGroup_cache_hit_witness :
  ∃ w1 t,
    IsInAdminGroup (Demo.scripted Demo.plain) Demo.alice Demo.cached_world
      = (Ok true, w1, t) ∧
    count_events is_members_list t = 0%nat ∧
    memcache w1 = memcache Demo.cached_world.
Proof.
  edestruct (IsInAdminGroup_cache_hit (Demo.scripted Demo.plain) Demo.alice Demo.cached_world)
    as (b & Hrun & Hiff & Hcount & Hmc);
    [reflexivity | reflexivity | reflexivity | discriminate | reflexivity |].
  assert (b = true) as -> by (apply Hiff; left).
  eexists _, _. split; [exact Hrun|]. split; [exact Hcount | exact Hmc].
Defined.

(** C3 as it is worded, with no mention of the [admin_group] setting, fails:
    in a domain whose setting is missing the cache entry is never consulted,
    and a cached admin gets the configuration error. *)
Lemma IsInAdminGroup_cache_hit_unconfigured_counterexample :
  ¬ (∀ (lib : Collaborators nat) user w user_info w1 t1 cached time,
       GetUserInfo lib (email user) w = (Ok user_info, w1, t1) →
       truthy (dict_get user_info "isAdmin" (PStr "")) = false →
       memcache w !! admins_key (CURRENT_DOMAIN w) = Some (cached, time) →
       ∃ (b : bool) w' t,
         IsInAdminGroup lib user w = (Ok b, w', t) ∧
         (b = true ↔ PStr (email user) ∈ cached) ∧
         count_events is_members_list t = 0%nat).
Proof.
  intros claim.
  edestruct (claim (Demo.scripted Demo.plain) Demo.alice Demo.unconfigured_cached)
    as (b & w' & t & Hrun & _); [reflexivity | reflexivity | reflexivity |].
  vm_compute in Hrun. discriminate Hrun.
Qed.

(** C4 on a directory whose get-user call meets the refresh failure. *)
Lemma IsInAdminGroup_token_refresh_error_witness :
  ∃ w' t,
    IsInAdminGroup (Demo.scripted Demo.expired) Demo.alice Demo.world
      = (Raise (SetupNeeded "oauth token no longer valid"), w', t) ∧
    credentials_model w' !! "x.com" = None ∧
    memcache w' = memcache Demo.world.
Proof.
  edestruct (IsInAdminGroup_token_refresh_error (Demo.scripted Demo.expired)
               Demo.alice Demo.world)
    as (w' & Hrun & _ & Hgone & Hmc & _); [reflexivity|].
  eexists _, _. split; [exact Hrun|]. split; [exact Hgone | exact Hmc].
Defined.

(** C5 on a domain without the [admin_group] setting. *)
Lemma IsInAdminGroup_admin_group_unset_witness :
  ∃ w1 t,
    IsInAdminGroup (Demo.scripted Demo.plain) Demo.alice Demo.unconfigured
      = (Raise (PyException "You must configure ADMIN_GROUP in config.py"), w1, t) ∧
    memcache w1 = memcache Demo.unconfigured ∧
    count_events is_memcache_event t = 0%nat ∧
    count_events is_members_list t = 0%nat.
Proof.
  eexists _, _.
  eapply (IsInAdminGroup_admin_group_unset (Demo.scripted Demo.plain)
            Demo.alice Demo.unconfigured);
    reflexivity.
Defined.

(** C7 on a stored key the client library cannot read. *)
Lemma BuildService_invalid_key_witness :
  ∃ w' t,
    BuildService (Demo.scripted Demo.bad_key) None Demo.world
      = (Raise (PyException INVALID_PEM_MESSAGE), w', t) ∧
    credentials_model w' !! "x.com" = None.
Proof.
  edestruct (BuildService_invalid_key (Demo.scripted Demo.bad_key) None Demo.world)
    as [Hfail _]; [reflexivity|].
  eexists _, _. split; [exact (Hfail _ eq_refl) | reflexivity].
Defined.



(** C9 on a directory whose listing call alone meets the refresh failure:
    four calls reached the outside, and the stores are as they were. *)
Lemma IsInAdminGroup_listing_refresh_error_witness :
  ∃ t,
    IsInAdminGroup (Demo.scripted Demo.expired_listing) Demo.alice Demo.world
      = (Raise (AccessTokenRefreshError "invalid_grant"), set_remote 4%nat Demo.world, t) ∧
    count_events is_credentials_delete t = 0%nat.
Proof.
  edestruct (IsInAdminGroup_listing_refresh_error (Demo.scripted Demo.expired_listing)
               Demo.alice Demo.world)
    as (Hrun & _ & _ & Hcount);
    [reflexivity | reflexivity | reflexivity | discriminate | reflexivity
    | reflexivity | reflexivity |].
  eexists. split; [exact Hrun | exact Hcount].
Defined.

(** C10 on records without [isAdmin], which are answered from the cached
    list, and on a record with ["yes"] under it. *)
Lemma IsInAdminGroup_isAdmin_truthiness_witness :
  (∃ w' t,
     IsInAdminGroup (Demo.scripted Demo.no_flag) Demo.alice Demo.cached_world
       = (Ok true, w', t)) ∧
  (∃ w' t,
     IsInAdminGroup (Demo.scripted Demo.no_flag) Demo.carol Demo.cached_world
       = (Ok false, w', t)) ∧
  (∃ w1 t,
     IsInAdminGroup (Demo.scripted Demo.string_flag) Demo.alice Demo.world
       = (Ok true, w1, t)) ∧
  truthy (PInt 7) = true ∧ truthy (PList [PNone]) = true.
Proof.
  split_and!.
  - edestruct (IsInAdminGroup_isAdmin_truthiness (Demo.scripted Demo.no_flag)
                 Demo.alice Demo.cached_world) as [Hfalsy _]; [reflexivity|].
    eexists _, _. rewrite (Hfalsy (or_introl eq_refl)). reflexivity.
  - edestruct (IsInAdminGroup_isAdmin_truthiness (Demo.scripted Demo.no_flag)
                 Demo.carol Demo.cached_world) as [Hfalsy _]; [reflexivity|].
    eexists _, _. rewrite (Hfalsy (or_introl eq_refl)). reflexivity.
  - edestruct (IsInAdminGroup_isAdmin_truthiness (Demo.scripted Demo.string_flag)
                 Demo.alice Demo.world) as (_ & Htruthy & _); [reflexivity|].
    eexists _, _. eapply Htruthy; reflexivity.
  - edestruct (IsInAdminGroup_isAdmin_truthiness (Demo.scripted Demo.string_flag)
                 Demo.alice Demo.world) as (_ & _ & Hfalse); [reflexivity|].
    apply not_false_iff_true. intros H. apply Hfalse in H.
    destruct H as [H|[H|[H|[H|[H|H]]]]]; discriminate H.
  - edestruct (IsInAdminGroup_isAdmin_truthiness (Demo.scripted Demo.string_flag)
                 Demo.alice Demo.world) as (_ & _ & Hfalse); [reflexivity|].
    apply not_false_iff_true. intros H. apply Hfalse in H.
    destruct H as [H|[H|[H|[H|[H|H]]]]]; discriminate H.
Defined.

(** C6 on the four positions of the chain. *)
Lemma GetAuthorizedHttp_fallback_chain_witness :
  _GetAuthorizedHttp (Demo.scripted Demo.key_file) (Some Demo.stored) Demo.world
    = (Ok (authorize Demo.stored), Demo.world, []) ∧
  _GetAuthorizedHttp (Demo.scripted Demo.key_file) None Demo.world
    = (Ok (authorize Demo.stored), Demo.world,
       [EvStorageGet "x.com";
        EvLog Debug "Successfully got credentials from storage." []]) ∧
  _GetAuthorizedHttp (Demo.scripted Demo.key_file) None Demo.fresh_service_account
    = (Ok (authorize Demo.key), set_remote 1%nat Demo.fresh_service_account,
       [EvStorageGet "x.com"; EvLoadCredentialsFromPem]) ∧
  _GetAuthorizedHttp (Demo.scripted Demo.key_file) None Demo.fresh
    = (Raise (SetupNeeded "Credentials not in storage"), Demo.fresh,
       [EvStorageGet "x.com"]).
Proof.
  destruct (GetAuthorizedHttp_fallback_chain (Demo.scripted Demo.key_file))
    as (Hexplicit & Hstored & Hfile & Hnone).
  split; [apply Hexplicit|].
  split; [apply (Hstored Demo.world); reflexivity|].
  split; [apply (Hfile Demo.fresh_service_account); reflexivity|].
  apply (Hnone Demo.fresh); reflexivity.
Defined.

(** ** The runs the specification lists as tests *)

(** Cache hit on [["a@x.com", "b@x.com"]]: true for [a@x.com], false for
    [c@x.com], and no listing call in either run. *)
Example cache_hit_alice :
  ∃ w t,
    IsInAdminGroup (Demo.scripted Demo.plain) Demo.alice Demo.cached_world = (Ok true, w, t) ∧
    count_events is_members_list t = 0%nat.
Proof. by eexists _, _. Qed.

Example cache_hit_carol :
  ∃ w t,
    IsInAdminGroup (Demo.scripted Demo.plain) Demo.carol Demo.cached_world = (Ok false, w, t) ∧
    count_events is_members_list t = 0%nat.
Proof. by eexists _, _. Qed.

(** Cache miss with the listing [[{"email": "a@x.com"}]]: the cache is
    filled with [["a@x.com"]] for 600 seconds; [c@x.com] is not an admin. *)
Example cache_miss_carol :
  ∃ w t,
    IsInAdminGroup (Demo.scripted Demo.plain) Demo.carol Demo.world = (Ok false, w, t) ∧
    memcache w = {[ "x.com:admins" := ([PStr "a@x.com"], 600) ]} ∧
    count_events is_members_list t = 1%nat.
Proof. by eexists _, _. Qed.

(** A listing without the [members] key raises [KeyError] and leaves the
    cache empty. *)
Example cache_miss_no_members :
  ∃ w t,
    IsInAdminGroup (Demo.scripted (Demo.with_listing (Ok ∅) Demo.plain))
      Demo.alice Demo.world = (Raise (KeyError "members"), w, t) ∧
    memcache w = ∅.
Proof. by eexists _, _. Qed.

(** A domain that was never set up: [SetupNeeded] from the credential
    lookup reaches the caller of [IsInAdminGroup]. *)
Example never_set_up :
  ∃ t,
    IsInAdminGroup (Demo.scripted Demo.plain) Demo.alice Demo.fresh
      = (Raise (SetupNeeded "Credentials not in storage"), Demo.fresh, t).
Proof. by eexists. Qed.

(** [UpdateUserInfo] reaches the update endpoint once and returns nothing. *)
Example update_user_info :
  UpdateUserInfo (Demo.scripted Demo.plain) "a@x.com" (Demo.record_of None "a@x.com")
    Demo.world
  = (Ok tt, set_remote 2%nat Demo.world,
     [EvLog Debug "Updating domain info for %s." ["a@x.com"];
      EvStorageGet "x.com";
      EvLog Debug "Successfully got credentials from storage." [];
      EvBuild "admin" "directory_v1";
      EvUsersUpdate "a@x.com" (Demo.record_of None "a@x.com")]).
Proof. reflexivity. Qed.

(** ** Runs for the further properties *)

(** X1 on the plain directory. *)
Lemma GetAdminEmails_caches_what_it_returns_witness :
  ∃ w' t,
    _GetAdminEmails (Demo.scripted Demo.plain) Edge.shared = (Ok [PStr "a@x.com"], w', t) ∧
    memcache w' !! "x.com:admins" = Some ([PStr "a@x.com"], 600) ∧
    memcache w' !! "y.com:admins" = Some ([PStr "root@y.com"], 600) ∧
    count_events is_members_list t = 1%nat.
Proof.
  eexists _, _. split; [reflexivity|].
  edestruct (GetAdminEmails_caches_what_it_returns (Demo.scripted Demo.plain) Edge.shared)
    as (Hkey & Hother & _ & Hcount & _); [reflexivity|].
  split; [exact Hkey|]. split; [|exact Hcount].
  rewrite (Hother "y.com:admins"); [reflexivity | discriminate].
Defined.

(** X2 on the listing of an empty group. *)
Lemma GetAdminEmails_failure_keeps_cache_witness :
  ∃ w' t,
    _GetAdminEmails (Demo.scripted Edge.empty_group) Edge.shared
      = (Raise (KeyError "members"), w', t) ∧
    memcache w' = memcache Edge.shared ∧
    count_events is_memcache_event t = 0%nat.
Proof.
  eexists _, _. split; [reflexivity|].
  edestruct (GetAdminEmails_failure_keeps_cache (Demo.scripted Edge.empty_group) Edge.shared)
    as (Hmc & Hcount & _); [reflexivity|].
  split; [exact Hmc | exact Hcount].
Defined.

(** X3 on the listing of an empty group. *)
Lemma IsInAdminGroup_listing_without_members_witness :
  ∃ t,
    IsInAdminGroup (Demo.scripted Edge.empty_group) Demo.alice Demo.world
      = (Raise (KeyError "members"), set_remote 4%nat Demo.world, t).
Proof.
  edestruct (IsInAdminGroup_listing_without_members (Demo.scripted Edge.empty_group)
               Demo.alice Demo.world) as (Hrun & _);
    [reflexivity | reflexivity | reflexivity | discriminate | reflexivity
    | reflexivity | reflexivity | reflexivity |].
  eexists. exact Hrun.
Defined.

(** X4 on a listing whose second member has no email. *)
Lemma GetAdminEmails_member_without_email_witness :
  ∃ t,
    _GetAdminEmails (Demo.scripted Edge.broken_listing) Demo.world
      = (Raise (KeyError "email"), set_remote 2%nat Demo.world, t) ∧
    memcache (set_remote 2%nat Demo.world) = ∅.
Proof.
  edestruct (GetAdminEmails_member_without_email (Demo.scripted Edge.broken_listing)
               Demo.world) as (Hrun & Hmc);
    [reflexivity | reflexivity
    | exact (eq_refl : _ !! "members" =
               Some (PList ([Demo.member "a@x.com"] ++ PDict ∅ :: [Demo.member "b@x.com"])))
    | repeat constructor; eexists; split; reflexivity
    | reflexivity |].
  eexists. split; [exact Hrun | exact Hmc].
Defined.

(** X5 on the plain directory: [a@x.com] fills the cache with the
    listing, [c@x.com] is answered from it. *)
Lemma IsInAdminGroup_miss_then_hit_witness :
  ∃ w' t w1 t',
    IsInAdminGroup (Demo.scripted Demo.plain) Demo.alice Demo.world = (Ok true, w', t) ∧
    memcache w' !! "x.com:admins" = Some ([PStr "a@x.com"], 600) ∧
    IsInAdminGroup (Demo.scripted Demo.plain) Demo.carol w' = (Ok false, w1, t') ∧
    count_events is_members_list t' = 0%nat.
Proof.
  edestruct (IsInAdminGroup_miss_then_hit (Demo.scripted Demo.plain)
               Demo.alice Demo.world) with (other := Demo.carol)
    as (info & listed & members & emails & t' & _ & _ & _ & _ & _
        & Hkey & Hrun & Hcount & _);
    [reflexivity | reflexivity | reflexivity | reflexivity |].
  pose proof Hkey as Hlist. vm_compute in Hlist. injection Hlist as <-.
  eexists _, _, _, _. split; [reflexivity|].
  split; [exact Hkey|]. split; [exact Hrun | exact Hcount].
Defined.

(** X6 on a directory that refuses the get-user call. *)
Lemma IsInAdminGroup_other_failure_propagates_witness :
  ∃ w1 t1,
    IsInAdminGroup (Demo.scripted Edge.forbidden) Demo.alice Demo.world
      = (Raise (RemoteError "HttpError" "403"), w1, t1) ∧
    credentials_model w1 = credentials_model Demo.world.
Proof.
  edestruct (IsInAdminGroup_other_failure_propagates (Demo.scripted Edge.forbidden)
               Demo.alice Demo.world) as (Hrun & _);
    [reflexivity | discriminate |].
  eexists _, _. split; [exact Hrun | reflexivity].
Defined.

(** X7 on a domain that was never set up. *)
Lemma operations_need_setup_witness :
  IsInAdminGroup (Demo.scripted Demo.plain) Demo.alice Demo.fresh
    = (Raise (SetupNeeded "Credentials not in storage"), Demo.fresh,
       [EvLog Debug "Getting domain info for %s." ["a@x.com"];
        EvStorageGet "x.com"]).
Proof.
  edestruct (operations_need_setup (Demo.scripted Demo.plain) Demo.fresh)
    as (_ & _ & _ & _ & Hrun); [reflexivity | reflexivity |].
  exact (Hrun Demo.alice).
Defined.

(** X8 on an update that succeeds, next to another domain's cache. *)
Lemma UpdateUserInfo_footprint_witness :
  ∃ w' t,
    UpdateUserInfo (Demo.scripted Demo.plain) "a@x.com"
      (Demo.record_of None "a@x.com") Edge.shared = (Ok tt, w', t) ∧
    memcache w' = memcache Edge.shared ∧
    credentials_model w' = credentials_model Edge.shared ∧
    EvUsersUpdate "a@x.com" (Demo.record_of None "a@x.com") ∈ t.
Proof.
  eexists _, _. split; [reflexivity|].
  edestruct (UpdateUserInfo_footprint (Demo.scripted Demo.plain) "a@x.com"
               (Demo.record_of None "a@x.com") Edge.shared)
    as (Hmc & _ & _ & _ & _ & Hok); [reflexivity|].
  destruct (Hok eq_refl) as [Hsent Hcr].
  split; [exact Hmc|]. split; [exact Hcr | exact Hsent].
Defined.

(** X9 on an update that meets the refresh failure. *)
Lemma UpdateUserInfo_failure_propagates_witness :
  ∃ t,
    UpdateUserInfo Edge.failing_update "a@x.com" (Demo.record_of None "a@x.com")
      Demo.world
      = (Raise (AccessTokenRefreshError "invalid_grant"), set_remote 2%nat Demo.world, t) ∧
    count_events is_credentials_delete t = 0%nat.
Proof.
  eexists.
  eapply (UpdateUserInfo_failure_propagates Edge.failing_update "a@x.com"
            (Demo.record_of None "a@x.com") Demo.world);
    reflexivity.
Defined.

(** X11 on a domain whose [admin_group] is the empty string. *)
Lemma IsInAdminGroup_admin_group_empty_witness :
  ∃ w1 t,
    IsInAdminGroup (Demo.scripted Demo.plain) Demo.alice Edge.empty_setting
      = (Raise (PyException "You must configure ADMIN_GROUP in config.py"), w1, t) ∧
    count_events is_memcache_event t = 0%nat ∧
    count_events is_members_list t = 0%nat.
Proof.
  eexists _, _.
  eapply (IsInAdminGroup_admin_group_empty (Demo.scripted Demo.plain)
            Demo.alice Edge.empty_setting);
    reflexivity.
Defined.

(** X12 on a cache miss next to another domain's cache entry. *)
Lemma IsInAdminGroup_cache_footprint_witness :
  ∃ r w' t,
    IsInAdminGroup (Demo.scripted Demo.plain) Demo.alice Edge.shared = (r, w', t) ∧
    memcache w' !! "y.com:admins" = Some ([PStr "root@y.com"], 600) ∧
    (count_events is_members_list t ≤ 1)%nat.
Proof.
  eexists _, _, _. split; [reflexivity|].
  edestruct (IsInAdminGroup_cache_footprint (Demo.scripted Demo.plain)
               Demo.alice Edge.shared) as (_ & Hother & Hcount & _); [reflexivity|].
  split; [|exact Hcount].
  rewrite (Hother "y.com:admins"); [reflexivity | discriminate].
Defined.

(** X13 on a cache miss that finds the user in the listing. *)
Lemma IsInAdminGroup_answer_grounded_witness :
  ∃ w' t user_info,
    IsInAdminGroup (Demo.scripted Demo.plain) Demo.alice Demo.world = (Ok true, w', t) ∧
    EvUsersGet "a@x.com" (Ok user_info) ∈ t.
Proof.
  eexists _, _.
  edestruct (IsInAdminGroup_answer_grounded (Demo.scripted Demo.plain)
               Demo.alice Demo.world true) as (user_info & Hin & _); [reflexivity|].
  exists user_info. split; [reflexivity | exact Hin].
Defined.

(** X14 on a refresh failure next to another domain's credentials. *)
Lemma IsInAdminGroup_credentials_footprint_witness :
  ∃ r w' t,
    IsInAdminGroup (Demo.scripted Demo.expired) Demo.alice Edge.shared = (r, w', t) ∧
    credentials_model w' !! "y.com" = Some Demo.key.
Proof.
  eexists _, _, _. split; [reflexivity|].
  edestruct (IsInAdminGroup_credentials_footprint (Demo.scripted Demo.expired)
               Demo.alice Edge.shared) as (_ & Hother & _); [reflexivity|].
  rewrite (Hother "y.com"); [reflexivity | discriminate].
Defined.

(** X15 on a refresh failure followed by a call for another user. *)
Lemma IsInAdminGroup_after_invalidation_witness :
  ∃ w',
    (IsInAdminGroup (Demo.scripted Demo.expired) Demo.alice Demo.world).1.2 = w' ∧
    IsInAdminGroup (Demo.scripted Demo.expired) Demo.carol w'
      = (Raise (SetupNeeded "Credentials not in storage"), w',
         [EvLog Debug "Getting domain info for %s." ["c@x.com"];
          EvStorageGet "x.com"]).
Proof.
  eexists. split; [reflexivity|].
  eapply (IsInAdminGroup_after_invalidation (Demo.scripted Demo.expired)
            Demo.alice Demo.world); reflexivity.
Defined.

(** X16 on a get-user call that succeeds. *)
Lemma GetUserInfo_footprint_witness :
  ∃ user_info w' t,
    GetUserInfo (Demo.scripted Demo.plain) "a@x.com" Edge.shared = (Ok user_info, w', t) ∧
    EvUsersGet "a@x.com" (Ok user_info) ∈ t ∧
    memcache w' = memcache Edge.shared.
Proof.
  eexists _, _, _. split; [reflexivity|].
  edestruct (GetUserInfo_footprint (Demo.scripted Demo.plain) "a@x.com" Edge.shared)
    as (_ & Hok & Hmc & _); [reflexivity|].
  split; [exact (Hok _ eq_refl) | exact Hmc].
Defined.
